(** * staticroute-operator: the manager's start-up code (cmd/manager/main.go)

    A shallow embedding of [parseTargetTable], [collectProtectedSubnets],
    the [getGw] closure, [mainImpl] and the deferred recover handler of
    [main], together with the parts of Go's [strings], [strconv] and [net]
    packages these functions call. *)

From Stdlib Require Import String Ascii List ZArith Bool Lia DecimalString.
Import ListNotations.
Open Scope string_scope.
Open Scope Z_scope.

(** ** Go values that cross the functions under study *)

Module Go.

(** [strconv.ErrSyntax] and [strconv.ErrRange]. *)
Inductive NumErrKind := ErrSyntax | ErrRange.

(** Dynamic types behind the [error] interface that reach this file. *)
Inductive error :=
| NumError (Func Num : string) (Err : NumErrKind)   (* *strconv.NumError *)
| ParseError (Type_ Text : string)                  (* *net.ParseError *)
| OtherError (msg : string).                        (* an injected collaborator's error *)

(** A value of interface type [error]: [None] is the nil interface. *)
Definition error_iface := option error.

(** A Go function returning [(T, error)], read the way the callers here
    read it: the error is tested first and the value used only when the
    error is nil. *)
Inductive result (A : Type) :=
| Ok (a : A)
| Err (e : error).
Arguments Ok {A} a.
Arguments Err {A} e.

(** Strings built with [fmt.Sprintf] are kept unevaluated. *)
Inductive fmtarg :=
| ArgString (s : string)
| ArgErrorText (e : error)       (* err.Error() *)
| ArgValue (e : error_iface).    (* an interface value printed with %v *)

Inductive gostring :=
| Lit (s : string)
| Sprintf (format : string) (args : list fmtarg).

(** The operand of [panic], of type [interface{}]. *)
Inductive any :=
| AnyNil
| AnyString (s : gostring)
| AnyError (e : error)
| AnyRuntimeError (msg : string).   (* runtime.Error, e.g. index out of range *)

(** Conversion of an [error] interface value to [interface{}]: a nil
    [error] becomes the nil [interface{}]. *)
Definition any_of_error (e : error_iface) : any :=
  match e with
  | None => AnyNil
  | Some e' => AnyError e'
  end.

(** A call either returns or panics. *)
Inductive outcome (A : Type) :=
| Ret (a : A)
| Panic (v : any).
Arguments Ret {A} a.
Arguments Panic {A} v.

Definition panics {A} (o : outcome A) : Prop := exists v, o = Panic v.

(** What a call returned, if it returned. *)
Definition returned {A} (o : outcome A) : option A :=
  match o with
  | Ret a => Some a
  | Panic _ => None
  end.

Definition bind {A B} (m : outcome A) (k : A -> outcome B) : outcome B :=
  match m with
  | Ret a => k a
  | Panic v => Panic v
  end.

End Go.
Import Go.

Notation "x <- m ;; k" := (bind m (fun x => k))
  (at level 61, m at next level, right associativity).

(** ** Package strings *)

Module strings.

Fixpoint HasPrefix (s p : string) : bool :=
  match p, s with
  | EmptyString, _ => true
  | String a p', String b s' => Ascii.eqb a b && HasPrefix s' p'
  | String _ _, EmptyString => false
  end.

(** [strings.Contains(s, substr)]. *)
Fixpoint Contains (s substr : string) : bool :=
  HasPrefix s substr ||
  match s with
  | EmptyString => false
  | String _ s' => Contains s' substr
  end.

(** Cutting [s] around the first occurrence of the byte [sep]:
    [s[:m]] and [s[m+1:]] for [m := IndexByte(s, sep)], when [m >= 0]. *)
Fixpoint cut (sep : ascii) (s : string) : option (string * string) :=
  match s with
  | EmptyString => None
  | String c s' =>
      if Ascii.eqb c sep then Some (EmptyString, s')
      else match cut sep s' with
           | Some (a, b) => Some (String c a, b)
           | None => None
           end
  end.

(** [strings.SplitN(s, sep, 2)] for a one-byte separator: one element when
    [sep] does not occur, otherwise the text before and after its first
    occurrence. *)
Definition SplitN2 (s : string) (sep : ascii) : list string :=
  match cut sep s with
  | None => [s]
  | Some (a, b) => [a; b]
  end.

(** [strings.Split(s, sep)] for a one-byte separator. *)
Fixpoint Split (s : string) (sep : ascii) : list string :=
  match s with
  | EmptyString => [EmptyString]
  | String c s' =>
      if Ascii.eqb c sep then EmptyString :: Split s' sep
      else match Split s' sep with
           | h :: t => String c h :: t
           | [] => [String c EmptyString]
           end
  end.

Fixpoint TrimLeft (s : string) (c : ascii) : string :=
  match s with
  | EmptyString => EmptyString
  | String a s' => if Ascii.eqb a c then TrimLeft s' c else s
  end.

Fixpoint TrimRight (s : string) (c : ascii) : string :=
  match s with
  | EmptyString => EmptyString
  | String a s' =>
      match TrimRight s' c with
      | EmptyString => if Ascii.eqb a c then EmptyString else String a EmptyString
      | r => String a r
      end
  end.

(** [strings.Trim(s, cutset)] for a one-byte cutset. *)
Definition Trim (s : string) (c : ascii) : string := TrimRight (TrimLeft s c) c.

End strings.

(** ** Package strconv *)

Module strconv.

Definition digit (c : ascii) : option Z :=
  let n := Z.of_nat (nat_of_ascii c) in
  if (48 <=? n) && (n <=? 57) then Some (n - 48) else None.

Definition maxUint64 : Z := 2 ^ 64 - 1.

(** The digit loop of [ParseUint(s, 10, 64)] on a non-empty input: a byte
    that is no decimal digit is a syntax error, an overflow of 64 bits a
    range error, reported at the byte where it happens. *)
Fixpoint parseDigits (n : Z) (s : string) : Z + NumErrKind :=
  match s with
  | EmptyString => inl n
  | String c s' =>
      match digit c with
      | None => inr ErrSyntax
      | Some d =>
          if n >=? maxUint64 / 10 + 1 then inr ErrRange
          else let n1 := n * 10 + d in
               if n1 >? maxUint64 then inr ErrRange else parseDigits n1 s'
      end
  end.

(** [strconv.Atoi] with a 64-bit [int]: an optional sign, then decimal
    digits, of a value that fits [int]. *)
Definition Atoi (s0 : string) : result Z :=
  let '(neg, s) :=
    match s0 with
    | String "+" s' => (false, s')
    | String "-" s' => (true, s')
    | _ => (false, s0)
    end in
  match s with
  | EmptyString => Err (NumError "Atoi" s0 ErrSyntax)
  | _ =>
      match parseDigits 0 s with
      | inr k => Err (NumError "Atoi" s0 k)
      | inl un =>
          let cutoff := 2 ^ 63 in
          if negb neg && (un >=? cutoff) then Err (NumError "Atoi" s0 ErrRange)
          else if neg && (un >? cutoff) then Err (NumError "Atoi" s0 ErrRange)
          else Ok (if neg then - un else un)
      end
  end.

End strconv.

(** ** main.go: parseTargetTable *)

Definition defaultRouteTable : Z := 254.

Definition parseTargetTable (targetTableEnv : string) : outcome Z :=
  match strconv.Atoi targetTableEnv with
  | Err err =>
      Panic (AnyString (Sprintf "Unable to parse custom table 'TARGET_TABLE=%s' %s"
                                [ArgString targetTableEnv; ArgErrorText err]))
  | Ok customTable =>
      if (customTable <? 0) || (customTable >? 254) then
        Panic (AnyString (Sprintf "Target table must be between 0 and 254 'TARGET_TABLE=%s'"
                                  [ArgString targetTableEnv]))
      else Ret customTable
  end.

(** ** Package net *)

Module net.

(** [net.IP] and [net.IPMask] are byte slices; the nil slice is [[]]. *)
Definition IP := list Z.

Record IPNet := { ip : IP; Mask : list Z }.

Section ParseCIDR.

(** What [ParseCIDR] does with the text before and after the slash
    ([parseIPv4], [parseIPv6], [dtoi], [CIDRMask], [IP.Mask]). *)
Variable parseAddrMask : string -> string -> option IPNet.

(** [net.ParseCIDR], keeping the network and the error of its three
    results: the input is cut at its first slash, and an input without a
    slash is an error. *)
Definition ParseCIDR (s : string) : result IPNet :=
  match strings.cut "/" s with
  | None => Err (ParseError "CIDR address" s)
  | Some (addr, mask) =>
      match parseAddrMask addr mask with
      | Some n => Ok n
      | None => Err (ParseError "CIDR address" s)
      end
  end.

End ParseCIDR.

(** The IPv4 branch of [parseAddrMask], to run the model on concrete
    environments; IPv6 text is not handled by it. *)
Fixpoint dtoi (n : Z) (seen : bool) (s : string) : option (Z * string) :=
  match s with
  | EmptyString => if seen then Some (n, s) else None
  | String c s' =>
      match strconv.digit c with
      | Some d =>
          let n' := n * 10 + d in
          if n' >=? 16777215 then None else dtoi n' true s'
      | None => if seen then Some (n, s) else None
      end
  end.

Fixpoint parseOctets (i : nat) (first : bool) (s : string) : option (list Z) :=
  match i with
  | O => match s with EmptyString => Some [] | _ => None end
  | S i' =>
      match (if first then Some s
             else match s with String "." s' => Some s' | _ => None end) with
      | None => None
      | Some s1 =>
          match dtoi 0 false s1 with
          | None => None
          | Some (n, s2) =>
              if n >? 255 then None
              else option_map (cons n) (parseOctets i' false s2)
          end
      end
  end.

Fixpoint CIDRMask (ones : Z) (bytes : nat) : list Z :=
  match bytes with
  | O => []
  | S b =>
      (if ones >=? 8 then 255
       else Z.land (Z.shiftl 255 (8 - Z.max ones 0)) 255) :: CIDRMask (ones - 8) b
  end.

Fixpoint maskBytes (a m : list Z) : list Z :=
  match a, m with
  | x :: a', y :: m' => Z.land x y :: maskBytes a' m'
  | _, _ => []
  end.

Definition parseAddrMask4 (addr mask : string) : option IPNet :=
  match parseOctets 4 true addr, dtoi 0 false mask with
  | Some a, Some (n, EmptyString) =>
      if n >? 32 then None
      else let m := CIDRMask n 4 in Some {| ip := maskBytes a m; Mask := m |}
  | _, _ => None
  end.

End net.

(** ** main.go: collectProtectedSubnets *)

(** An index expression [v[i]]: out of range is a run-time panic. *)
Definition elemAt {A} (v : list A) (i : nat) : outcome A :=
  match nth_error v i with
  | Some a => Ret a
  | None => Panic (AnyRuntimeError "index out of range")
  end.

Section ProtectedSubnets.

Variable parseAddrMask : string -> string -> option net.IPNet.

(** The inner loop, over the comma-separated pieces of one value. *)
Fixpoint appendSubnets (pieces : list string) (protectedSubnets : list net.IPNet)
  : outcome (list net.IPNet) :=
  match pieces with
  | [] => Ret protectedSubnets
  | subnet :: rest =>
      match net.ParseCIDR parseAddrMask (strings.Trim subnet " ") with
      | Err err => Panic (any_of_error (Some err))
      | Ok subnetNet => appendSubnets rest (protectedSubnets ++ [subnetNet])
      end
  end.

(** The outer loop, over the environment entries. *)
Fixpoint collectFrom (envVars : list string) (protectedSubnets : list net.IPNet)
  : outcome (list net.IPNet) :=
  match envVars with
  | [] => Ret protectedSubnets
  | e :: rest =>
      let v := strings.SplitN2 e "=" in
      v0 <- elemAt v 0 ;;
      if strings.Contains v0 "PROTECTED_SUBNET_" then
        v1 <- elemAt v 1 ;;
        protectedSubnets' <- appendSubnets (strings.Split v1 ",") protectedSubnets ;;
        collectFrom rest protectedSubnets'
      else collectFrom rest protectedSubnets
  end.

Definition collectProtectedSubnets (envVars : list string) : outcome (list net.IPNet) :=
  collectFrom envVars [].

End ProtectedSubnets.

(** ** main.go: the getGw closure handed to mainImpl *)

(** The fields of [netlink.Route] that matter here. *)
Record Route := { LinkIndex : Z; Gw : net.IP; Table : Z }.

Section GetGw.

(** [netlink.RouteGet]: the kernel's answer for a destination. *)
Variable RouteGet : net.IP -> result (list Route).

Definition getGw (ip : net.IP) : outcome (net.IP * error_iface) :=
  match RouteGet ip with
  | Err err => Ret ([], Some err)
  | Ok route => r <- elemAt route 0 ;; Ret (Gw r, None)
  end.

End GetGw.

(** ** main.go: mainImpl *)

(** Collaborators that [mainImpl] only passes along. *)
Inductive Config := mkConfig (id : nat).
Inductive Manager := mkManager (id : nat).
Inductive Clientset := mkClientset (id : nat).
Inductive RouteManager := mkRouteManager (id : nat).

(** [metav1.APIResource], by the fields read here. *)
Record APIResource := { Name : string; Kind : string }.

(** [staticroute.ManagerOptions]. *)
Record ManagerOptions := {
  Hostname : string;
  OptTable : Z;
  ProtectedSubnets : list net.IPNet;
  OptRouteManager : RouteManager;
  GetGw : net.IP -> outcome (net.IP * error_iface)
}.

(** [mainImplParams]. A field of function type is the function; a field
    whose function takes no argument of interest is its result. The
    methods reached through the results ([Discovery], [mgr.Start], the
    route manager's [Run]) are fields as well.

    [Run] is called by the goroutine of lines 205-207, beside the main
    goroutine. [Some (k, err)]: it returns [err] while the process is
    still running, when the main goroutine has gone [k] events further
    since it started the goroutine (or to its last event, if fewer are
    left). [None]: it does not return before the process ends. *)
Record mainImplParams := {
  getEnv : string -> string;
  osEnv : list string;
  getConfig : Config * error_iface;
  newManager : Config -> Manager * error_iface;
  addToScheme : Manager -> error_iface;
  newKubernetesConfig : Config -> Clientset * error_iface;
  ServerResourcesForGroupVersion : Clientset -> string -> list APIResource * error_iface;
  newRouterManager : unit -> RouteManager;
  addStaticRouteController : Manager -> ManagerOptions -> error_iface;
  addNodeController : Manager -> error_iface;
  paramGetGw : net.IP -> outcome (net.IP * error_iface);
  mgrStart : Manager -> error_iface;
  Run : RouteManager -> option (nat * error_iface)
}.

(** What [mainImpl] does to the outside, in program order. *)
Inductive event :=
| EvInfo (msg : gostring)
| EvTableSelected (table : Z)                 (* logger.Info("Table selected", "value", table) *)
| EvError (err : any) (msg : string)          (* logger.Error *)
| EvNewRouterManager (rm : RouteManager)      (* params.newRouterManager() *)
| EvGoRun (rm : RouteManager)                 (* go func() { panic(rm.Run(stopChan)) }() *)
| EvAddStaticRouteController (opts : ManagerOptions)
| EvAddNodeController
| EvStart.

(** A computation with a trace: the events so far and how it ended. *)
Definition traced (A : Type) := (list event * outcome A)%type.

Definition tret {A} (a : A) : traced A := ([], Ret a).
Definition tpanic {A} (v : any) : traced A := ([], Panic v).
Definition emit (e : event) : traced unit := ([e], Ret tt).
Definition lift {A} (o : outcome A) : traced A := ([], o).

Definition tbind {A B} (m : traced A) (k : A -> traced B) : traced B :=
  match m with
  | (t, Ret a) => let (t', r) := k a in ((t ++ t')%list, r)
  | (t, Panic v) => (t, Panic v)
  end.

Notation "x <~ m ;; k" := (tbind m (fun x => k))
  (at level 61, m at next level, right associativity).
Notation "m ;;; k" := (tbind m (fun _ => k))
  (at level 61, right associativity).

(** [if err != nil { panic(err) }]. *)
Definition panicIf (err : error_iface) : traced unit :=
  match err with
  | Some _ => tpanic (any_of_error err)
  | None => tret tt
  end.

(** Lines 187-191: the table is the default unless TARGET_TABLE is set. *)
Definition selectTable (getEnv : string -> string) : outcome Z :=
  let table := defaultRouteTable in
  let targetTableEnv := getEnv "TARGET_TABLE" in
  if negb (Nat.eqb (String.length targetTableEnv) 0)
  then parseTargetTable targetTableEnv
  else Ret table.

Section MainImpl.

Variable parseAddrMask : string -> string -> option net.IPNet.
Variable params : mainImplParams.

(** The loop over [resources.APIResources]; its result is [crdFound]. *)
Fixpoint registerStaticRoute (mgr : Manager) (hostname : string) (table : Z)
    (protectedSubnets : list net.IPNet) (resources : list APIResource) : traced bool :=
  match resources with
  | [] => tret false
  | resource :: rest =>
      if negb (String.eqb (Kind resource) "StaticRoute") then
        registerStaticRoute mgr hostname table protectedSubnets rest
      else
        let routeManager := newRouterManager params tt in
        emit (EvNewRouterManager routeManager) ;;;
        emit (EvGoRun routeManager) ;;;
        let opts := {| Hostname := hostname;
                       OptTable := table;
                       ProtectedSubnets := protectedSubnets;
                       OptRouteManager := routeManager;
                       GetGw := paramGetGw params |} in
        emit (EvAddStaticRouteController opts) ;;;
        panicIf (addStaticRouteController params mgr opts) ;;;
        tret true
  end.

Definition mainImpl : traced unit :=
  let '(cfg, err) := getConfig params in
  panicIf err ;;;
  let '(mgr, err) := newManager params cfg in
  panicIf err ;;;
  emit (EvInfo (Lit "Registering Components.")) ;;;
  panicIf (addToScheme params mgr) ;;;
  let hostname := getEnv params "NODE_HOSTNAME" in
  (if String.eqb hostname "" then
     tpanic (AnyString (Lit "Missing environment variable: NODE_HOSTNAME"))
   else tret tt) ;;;
  emit (EvInfo (Sprintf "Node Hostname: %s" [ArgString hostname])) ;;;
  emit (EvInfo (Lit "Registering Components.")) ;;;
  let '(clientset, err) := newKubernetesConfig params cfg in
  panicIf err ;;;
  let '(resources, err) :=
    ServerResourcesForGroupVersion params clientset "static-route.ibm.com/v1" in
  panicIf err ;;;
  table <~ lift (selectTable (getEnv params)) ;;
  emit (EvTableSelected table) ;;;
  protectedSubnets <~ lift (collectProtectedSubnets parseAddrMask (osEnv params)) ;;
  crdFound <~ registerStaticRoute mgr hostname table protectedSubnets resources ;;
  (if negb crdFound then
     emit (EvInfo (Lit "CRD not found: staticroutes.static-route.ibm.com")) ;;;
     tpanic (any_of_error err)
   else tret tt) ;;;
  emit EvAddNodeController ;;;
  panicIf (addNodeController params mgr) ;;;
  emit (EvInfo (Lit "Starting the Cmd.")) ;;;
  emit EvStart ;;;
  match mgrStart params mgr with
  | Some e =>
      emit (EvError (AnyError e) "Manager exited non-zero") ;;;
      tpanic (any_of_error (Some e))
  | None => tret tt
  end.

End MainImpl.

(** ** main.go: main's deferred recover handler *)

(** What [recover()] returns in the deferred function for a panic with
    operand [v]. With [panicnil] (the semantics of every Go release before
    1.21, and of later toolchains for a main module that declares an older
    Go version) a nil operand is recovered as nil; without it the run time
    replaces a nil operand by a [*runtime.PanicNilError]. *)
Definition recover (panicnil : bool) (v : any) : any :=
  match v with
  | AnyNil =>
      if panicnil then AnyNil
      else AnyRuntimeError "panic called with nil argument (obsolete)"
  | _ => v
  end.

Definition is_nil (v : any) : bool :=
  match v with
  | AnyNil => true
  | _ => false
  end.

(** The main goroutine: its trace, and the status the process ends with
    when the main goroutine is the one that ends it. A panic out of
    [mainImpl] runs the deferred function; when [recover()] is not nil it
    logs and calls [os.Exit(1)], otherwise the panic is recovered all the
    same, [main] returns and the process exits with status 0. The flag
    and logger set-up and [printVersion], which precede [mainImpl], are
    left out. *)
Definition mainGoroutine (panicnil : bool)
    (parseAddrMask : string -> string -> option net.IPNet)
    (params : mainImplParams) : list event * Z :=
  match mainImpl parseAddrMask params with
  | (t, Ret _) => (t, 0)
  | (t, Panic v) =>
      let r := recover panicnil v in
      if negb (is_nil r) then ((t ++ [EvError r ""])%list, 1)
      else (t, 0)
  end.

(** The goroutine of lines 205-207, [panic(routeManager.Run(stopChan))]:
    the deferred function of [main] does not cover it, so when [Run]
    returns, whatever it returns, the panic is recovered by nobody and
    the run time ends the process. The result is the trace of the main
    goroutine cut where that happens, if it happens. *)
Fixpoint goroutinePanic (run : RouteManager -> option (nat * error_iface))
    (t : list event) : option (list event) :=
  match t with
  | [] => None
  | e :: t' =>
      match e with
      | EvGoRun rm =>
          match run rm with
          | Some (k, _) => Some (e :: firstn k t')
          | None => option_map (cons e) (goroutinePanic run t')
          end
      | _ => option_map (cons e) (goroutinePanic run t')
      end
  end.

(** How the process ends when [main] is run with the given collaborators:
    the trace and the exit status. An unrecovered panic of the goroutine
    ends the process with status 2; otherwise the main goroutine ends
    it. *)
Definition main (panicnil : bool)
    (parseAddrMask : string -> string -> option net.IPNet)
    (params : mainImplParams) : list event * Z :=
  let '(t, status) := mainGoroutine panicnil parseAddrMask params in
  match goroutinePanic (Run params) t with
  | Some t' => (t', 2)
  | None => (t, status)
  end.

(** The trace's instances created and instances whose [Run] was started. *)
Definition created (t : list event) : list RouteManager :=
  flat_map (fun e => match e with EvNewRouterManager rm => [rm] | _ => [] end) t.

Definition started (t : list event) : list RouteManager :=
  flat_map (fun e => match e with EvGoRun rm => [rm] | _ => [] end) t.

Definition controllerOptions (t : list event) : list ManagerOptions :=
  flat_map (fun e => match e with EvAddStaticRouteController o => [o] | _ => [] end) t.

Definition tablesSelected (t : list event) : list Z :=
  flat_map (fun e => match e with EvTableSelected n => [n] | _ => [] end) t.

(** The resource list [mainImpl] loops over. *)
Definition discovered (params : mainImplParams) : list APIResource :=
  let cfg := fst (getConfig params) in
  fst (ServerResourcesForGroupVersion params (fst (newKubernetesConfig params cfg))
         "static-route.ibm.com/v1").

Definition isStaticRoute (r : APIResource) : bool :=
  String.eqb (Kind r) "StaticRoute".

(** No route manager was created or started and no controller added. *)
Definition stoppedEarly (t : list event) : Prop :=
  created t = [] /\ started t = [] /\ controllerOptions t = [].

(** ** The protected-subnet collection, as the specification words it *)

Module Spec.

(** An environment entry is [name=value], cut at the first [=]. *)
Definition envName (e : string) : string :=
  match strings.cut "=" e with
  | Some (name, _) => name
  | None => e
  end.

Definition envValue (e : string) : option string :=
  match strings.cut "=" e with
  | Some (_, value) => Some value
  | None => None
  end.

(** The name contains PROTECTED_SUBNET_ somewhere. *)
Definition hasMarker (name : string) : Prop :=
  exists pre post, name = pre ++ "PROTECTED_SUBNET_" ++ post.

Definition designated (e : string) : bool :=
  strings.Contains (envName e) "PROTECTED_SUBNET_".

(** All-or-nothing map. *)
Fixpoint traverse {A B} (f : A -> option B) (l : list A) : option (list B) :=
  match l with
  | [] => Some []
  | a :: l' =>
      match f a, traverse f l' with
      | Some b, Some bs => Some (b :: bs)
      | _, _ => None
      end
  end.

(** The comma-separated pieces of a value, each without its surrounding
    spaces. *)
Definition pieces (value : string) : list string :=
  map (fun p => strings.Trim p " ") (strings.Split value ",").

Section Subnets.

Variable parseAddrMask : string -> string -> option net.IPNet.

Definition parseNet (piece : string) : option net.IPNet :=
  match net.ParseCIDR parseAddrMask piece with
  | Ok n => Some n
  | Err _ => None
  end.

(** Every designated variable, in order; the pieces of its value, in
    order; each piece parsed. *)
Definition protectedSubnets (env : list string) : option (list net.IPNet) :=
  match traverse envValue (filter designated env) with
  | Some values => traverse parseNet (concat (map pieces values))
  | None => None
  end.

End Subnets.

(** A string with an optional sign and then one decimal digit or more. *)
Fixpoint allDigits (s : string) : bool :=
  match s with
  | EmptyString => true
  | String c s' =>
      match strconv.digit c with
      | Some _ => allDigits s'
      | None => false
      end
  end.

Definition numeric (s : string) : bool :=
  let body :=
    match s with
    | String "+" s' => s'
    | String "-" s' => s'
    | _ => s
    end in
  negb (String.eqb body "") && allDigits body.

(** The decimal notation of an integer. *)
Definition decimal (n : Z) : string := NilZero.string_of_int (Z.to_int n).

End Spec.

(** ** Concrete collaborators, to run [mainImpl] *)

Module Sample.

Definition noError {A} (a : A) : A * error_iface := (a, None).

(** A node where every collaborator succeeds and the route manager runs
    for as long as the process. *)
Definition params (env : string -> string) (environ : list string)
    (resources : list APIResource) : mainImplParams :=
  {| getEnv := env;
     osEnv := environ;
     getConfig := noError (mkConfig 0);
     newManager := fun _ => noError (mkManager 0);
     addToScheme := fun _ => None;
     newKubernetesConfig := fun _ => noError (mkClientset 0);
     ServerResourcesForGroupVersion := fun _ _ => noError resources;
     newRouterManager := fun _ => mkRouteManager 0;
     addStaticRouteController := fun _ _ => None;
     addNodeController := fun _ => None;
     paramGetGw := getGw (fun _ => Ok [{| LinkIndex := 2; Gw := [10; 0; 0; 1]; Table := 254 |}]);
     mgrStart := fun _ => None;
     Run := fun _ => None |}.

(** NODE_HOSTNAME is set, TARGET_TABLE is not. *)
Definition env (name : string) : string :=
  if String.eqb name "NODE_HOSTNAME" then "node1" else "".

Definition staticRoute : APIResource :=
  {| Name := "staticroutes"; Kind := "StaticRoute" |}.

Definition other : APIResource :=
  {| Name := "others"; Kind := "Other" |}.

End Sample.

(** ** Notions for the properties of the whole start-up *)

Module Startup.

(** The options [mainImpl] builds at line 210, for a table and a list of
    protected subnets. *)
Definition options (params : mainImplParams) (table : Z)
    (protectedSubnets : list net.IPNet) : ManagerOptions :=
  {| Hostname := getEnv params "NODE_HOSTNAME";
     OptTable := table;
     ProtectedSubnets := protectedSubnets;
     OptRouteManager := newRouterManager params tt;
     GetGw := paramGetGw params |}.

(** The events up to the choice of the table. *)
Definition prelude (params : mainImplParams) (table : Z) : list event :=
  [EvInfo (Lit "Registering Components.");
   EvInfo (Sprintf "Node Hostname: %s" [ArgString (getEnv params "NODE_HOSTNAME")]);
   EvInfo (Lit "Registering Components.");
   EvTableSelected table].

(** The events of registering the static route controller. *)
Definition registration (params : mainImplParams) (table : Z)
    (protectedSubnets : list net.IPNet) : list event :=
  [EvNewRouterManager (newRouterManager params tt);
   EvGoRun (newRouterManager params tt);
   EvAddStaticRouteController (options params table protectedSubnets)].

(** The whole trace of a start-up that reaches the end of [mainImpl]. *)
Definition complete (params : mainImplParams) (table : Z)
    (protectedSubnets : list net.IPNet) : list event :=
  (prelude params table ++ registration params table protectedSubnets ++
   [EvAddNodeController; EvInfo (Lit "Starting the Cmd."); EvStart])%list.

Definition isAddNodeController (e : event) : bool :=
  match e with EvAddNodeController => true | _ => false end.

Definition isStart (e : event) : bool :=
  match e with EvStart => true | _ => false end.

(** Occurrences of a byte in a string. *)
Fixpoint occurrences (c : ascii) (s : string) : nat :=
  match s with
  | EmptyString => O
  | String a s' => ((if Ascii.eqb a c then 1 else 0) + occurrences c s')%nat
  end.

(** One network per designated variable, and one more per comma of its
    value. *)
Definition expectedCount (env : list string) : nat :=
  list_sum (map (fun e => match Spec.envValue e with
                          | Some value => S (occurrences "," value)
                          | None => O
                          end)
                (filter Spec.designated env)).

(** A string of spaces. *)
Fixpoint spaces (n : nat) : string :=
  match n with
  | O => EmptyString
  | S n' => String " " (spaces n')
  end.

(** The first byte is a decimal digit. *)
Definition startsWithDigit (s : string) : bool :=
  match s with
  | String c _ => match strconv.digit c with Some _ => true | None => false end
  | EmptyString => false
  end.

(** The same collaborators, with a discovery that answers [resources]. *)
Definition withResources (params : mainImplParams) (resources : list APIResource)
  : mainImplParams :=
  {| getEnv := getEnv params;
     osEnv := osEnv params;
     getConfig := getConfig params;
     newManager := newManager params;
     addToScheme := addToScheme params;
     newKubernetesConfig := newKubernetesConfig params;
     ServerResourcesForGroupVersion := fun _ _ => (resources, None);
     newRouterManager := newRouterManager params;
     addStaticRouteController := addStaticRouteController params;
     addNodeController := addNodeController params;
     paramGetGw := paramGetGw params;
     mgrStart := mgrStart params;
     Run := Run params |}.

(** The same collaborators, with a route manager whose [Run] answers
    [run]. *)
Definition withRun (params : mainImplParams)
    (run : RouteManager -> option (nat * error_iface)) : mainImplParams :=
  {| getEnv := getEnv params;
     osEnv := osEnv params;
     getConfig := getConfig params;
     newManager := newManager params;
     addToScheme := addToScheme params;
     newKubernetesConfig := newKubernetesConfig params;
     ServerResourcesForGroupVersion := ServerResourcesForGroupVersion params;
     newRouterManager := newRouterManager params;
     addStaticRouteController := addStaticRouteController params;
     addNodeController := addNodeController params;
     paramGetGw := paramGetGw params;
     mgrStart := mgrStart params;
     Run := run |}.

End Startup.

(** * Properties *)

(** ** Package strings *)

Lemma HasPrefix_iff (s p : string) :
  strings.HasPrefix s p = true <-> exists post, s = p ++ post.
Proof.
  revert s; induction p as [|a p IH]; intros s; simpl.
  - split; [intros _; exists s; reflexivity | now destruct s].
  - destruct s as [|b s].
    + split; [discriminate | intros [post H]; discriminate].
    + simpl. rewrite andb_true_iff, Ascii.eqb_eq, IH. split.
      * intros [-> [post ->]]. exists post. reflexivity.
      * intros [post H]. injection H as -> ->. split; [reflexivity | now exists post].
Qed.

Lemma Contains_iff (s sub : string) :
  strings.Contains s sub = true <-> exists pre post, s = pre ++ sub ++ post.
Proof.
  induction s as [|c s IH].
  - cbn [strings.Contains]. rewrite orb_false_r, HasPrefix_iff. split.
    + intros [post H]. exists "", post. exact H.
    + intros [pre [post H]]. destruct pre; [now exists post | discriminate].
  - cbn [strings.Contains]. rewrite orb_true_iff, HasPrefix_iff, IH. split.
    + intros [[post H] | [pre [post H]]].
      * exists "", post. exact H.
      * exists (String c pre), post. simpl. now rewrite H.
    + intros [pre [post H]]. destruct pre as [|c' pre].
      * left. now exists post.
      * right. simpl in H. injection H as _ H. now exists pre, post.
Qed.

Lemma designated_iff (e : string) :
  Spec.designated e = true <-> Spec.hasMarker (Spec.envName e).
Proof. apply Contains_iff. Qed.

Lemma Split_nonempty (s : string) (sep : ascii) : strings.Split s sep <> [].
Proof.
  destruct s as [|c s]; simpl; [discriminate|].
  destruct (Ascii.eqb c sep); [discriminate|].
  destruct (strings.Split s sep); discriminate.
Qed.

Lemma cut_append (sep : ascii) (a b : string) :
  strings.cut sep a = None -> strings.cut sep (a ++ String sep b) = Some (a, b).
Proof.
  induction a as [|c a IH]; simpl.
  - now rewrite Ascii.eqb_refl.
  - destruct (Ascii.eqb c sep); [discriminate|].
    destruct (strings.cut sep a) as [[x y]|]; [discriminate|].
    intros _. now rewrite IH.
Qed.

Lemma cut_spec (sep : ascii) (s a b : string) :
  strings.cut sep s = Some (a, b) -> s = a ++ String sep b /\ strings.cut sep a = None.
Proof.
  revert a b; induction s as [|c s IH]; simpl; intros a b; [discriminate|].
  destruct (Ascii.eqb c sep) eqn:E.
  - apply Ascii.eqb_eq in E. subst c. intros H. injection H as <- <-. now split.
  - destruct (strings.cut sep s) as [[x y]|]; [|discriminate].
    intros H. injection H as <- <-. destruct (IH x y eq_refl) as [-> Hx].
    split; [reflexivity|]. simpl. now rewrite E, Hx.
Qed.

(** ** parseTargetTable *)

Lemma parseDigits_allDigits (s : string) (n un : Z) :
  strconv.parseDigits n s = inl un -> Spec.allDigits s = true.
Proof.
  revert n; induction s as [|c s IH]; simpl; intros n; [reflexivity|].
  destruct (strconv.digit c); [|discriminate].
  destruct (n >=? _); [discriminate|].
  destruct (_ >? _); [discriminate|]. apply IH.
Qed.

Lemma Atoi_numeric (s : string) (n : Z) :
  strconv.Atoi s = Ok n -> Spec.numeric s = true.
Proof.
  unfold strconv.Atoi, Spec.numeric.
  set (body := match s with String "+" s' => s' | String "-" s' => s' | _ => s end).
  set (neg := match s with String "-" _ => true | _ => false end).
  replace (match s with
           | String "+" s' => (false, s')
           | String "-" s' => (true, s')
           | _ => (false, s)
           end) with (neg, body).
  2:{ subst neg body. destruct s as [|c s]; [reflexivity|].
      destruct c as [[] [] [] [] [] [] [] []]; reflexivity. }
  destruct body as [|c b]; [discriminate|].
  destruct (strconv.parseDigits 0 (String c b)) eqn:E; [|discriminate].
  intros _. apply parseDigits_allDigits in E. now rewrite E.
Qed.

(** C2. [parseTargetTable] returns [n] exactly when the text parses as the
    integer [n] and [0 <= n <= 254]; it panics, returning no table, on
    every text that is not numeric and on every integer outside that
    range. *)
Theorem parseTargetTable_spec (s : string) :
  (forall n, parseTargetTable s = Ret n <-> strconv.Atoi s = Ok n /\ 0 <= n <= 254) /\
  (Spec.numeric s = false -> panics (parseTargetTable s)) /\
  (forall e, strconv.Atoi s = Err e -> panics (parseTargetTable s)) /\
  (forall n, strconv.Atoi s = Ok n -> n < 0 \/ 254 < n -> panics (parseTargetTable s)).
Proof.
  assert (Herr : forall e, strconv.Atoi s = Err e -> panics (parseTargetTable s)).
  { intros e H. unfold parseTargetTable. rewrite H. eexists; reflexivity. }
  split; [|split; [|split]].
  - intros n. unfold parseTargetTable. split.
    + destruct (strconv.Atoi s) as [m|e]; [|discriminate].
      destruct (m <? 0) eqn:E1; [discriminate|].
      destruct (m >? 254) eqn:E2; [discriminate|].
      intros H. injection H as <-. split; [reflexivity | lia].
    + intros [-> [H0 H1]].
      replace (n <? 0) with false by lia. replace (n >? 254) with false by lia.
      reflexivity.
  - intros H. destruct (strconv.Atoi s) as [n|e] eqn:E.
    + apply Atoi_numeric in E. congruence.
    + now apply (Herr e).
  - exact Herr.
  - intros n H Hn. unfold parseTargetTable. rewrite H.
    replace ((n <? 0) || (n >? 254)) with true; [eexists; reflexivity|].
    symmetry. apply orb_true_iff. lia.
Qed.

Lemma parseTargetTable_spec_witness :
  parseTargetTable "254" = Ret 254 /\
  panics (parseTargetTable "main") /\
  panics (parseTargetTable "") /\
  panics (parseTargetTable "255") /\
  panics (parseTargetTable "-1").
Proof.
  split; [|split; [|split; [|split]]].
  - apply (proj1 (parseTargetTable_spec "254")). split; [reflexivity | lia].
  - apply (proj1 (proj2 (parseTargetTable_spec "main"))). reflexivity.
  - apply (proj1 (proj2 (proj2 (parseTargetTable_spec "")))
             (NumError "Atoi" "" ErrSyntax)). reflexivity.
  - apply (proj2 (proj2 (proj2 (parseTargetTable_spec "255"))) 255);
      [reflexivity | lia].
  - apply (proj2 (proj2 (proj2 (parseTargetTable_spec "-1"))) (-1));
      [reflexivity | lia].
Defined.

(** X16. Every table id of the range, written in decimal, is accepted
    and returned as it is. *)
Lemma parseTargetTable_decimal (n : Z) :
  0 <= n <= 254 -> parseTargetTable (Spec.decimal n) = Ret n.
Proof.
  intros Hn.
  assert (H : forallb (fun k => match parseTargetTable (Spec.decimal (Z.of_nat k)) with
                                | Ret m => m =? Z.of_nat k
                                | Panic _ => false
                                end) (seq 0 255) = true) by (vm_compute; reflexivity).
  rewrite forallb_forall in H. specialize (H (Z.to_nat n)).
  rewrite Z2Nat.id in H by lia.
  destruct (parseTargetTable (Spec.decimal n)) as [m|v].
  - f_equal. apply Z.eqb_eq. apply H. apply in_seq. lia.
  - discriminate H. apply in_seq. lia.
Qed.

Example parseTargetTable_254 : parseTargetTable "254" = Ret 254.
Proof. reflexivity. Qed.

Example parseTargetTable_plus7 : parseTargetTable "+007" = Ret 7.
Proof. reflexivity. Qed.

Example parseTargetTable_space : panics (parseTargetTable " 7").
Proof. eexists; reflexivity. Qed.

Example parseTargetTable_huge : panics (parseTargetTable "99999999999999999999999").
Proof. eexists; reflexivity. Qed.

(** ** collectProtectedSubnets *)

Lemma returned_None {A} (o : outcome A) : returned o = None <-> panics o.
Proof.
  destruct o; simpl; split; try discriminate.
  - intros [v H]; discriminate.
  - intros _; now eexists.
  - reflexivity.
Qed.

Lemma returned_Some {A} (o : outcome A) (a : A) : returned o = Some a <-> o = Ret a.
Proof. destruct o; simpl; split; congruence. Qed.

Section Traverse.

Context {A B : Type} (f : A -> option B).

Lemma traverse_app (l1 l2 : list A) :
  Spec.traverse f (l1 ++ l2) =
  match Spec.traverse f l1, Spec.traverse f l2 with
  | Some b1, Some b2 => Some (b1 ++ b2)%list
  | _, _ => None
  end.
Proof.
  induction l1 as [|a l1 IH]; simpl.
  - now destruct (Spec.traverse f l2).
  - destruct (f a); [|reflexivity]. rewrite IH.
    destruct (Spec.traverse f l1); [|reflexivity].
    now destruct (Spec.traverse f l2).
Qed.

Lemma traverse_In (l : list A) (bs : list B) (a : A) :
  Spec.traverse f l = Some bs -> In a l -> exists b, f a = Some b /\ In b bs.
Proof.
  revert bs; induction l as [|x l IH]; simpl; intros bs H Hin; [contradiction|].
  destruct (f x) as [b|] eqn:Fx; [|discriminate].
  destruct (Spec.traverse f l) as [bs'|]; [|discriminate].
  injection H as <-. destruct Hin as [-> | Hin].
  - exists b. split; [assumption | now left].
  - destruct (IH bs' eq_refl Hin) as [b' [H1 H2]]. exists b'. split; [assumption | now right].
Qed.

Lemma traverse_In_inv (l : list A) (bs : list B) (b : B) :
  Spec.traverse f l = Some bs -> In b bs -> exists a, In a l /\ f a = Some b.
Proof.
  revert bs; induction l as [|x l IH]; simpl; intros bs H Hin.
  - injection H as <-. contradiction.
  - destruct (f x) as [b0|] eqn:Fx; [|discriminate].
    destruct (Spec.traverse f l) as [bs'|]; [|discriminate].
    injection H as <-. destruct Hin as [-> | Hin].
    + exists x. split; [now left | assumption].
    + destruct (IH bs' eq_refl Hin) as [a [H1 H2]]. exists a. split; [now right | assumption].
Qed.

Lemma traverse_length (l : list A) (bs : list B) :
  Spec.traverse f l = Some bs -> length bs = length l.
Proof.
  revert bs; induction l as [|x l IH]; simpl; intros bs H.
  - now injection H as <-.
  - destruct (f x); [|discriminate].
    destruct (Spec.traverse f l) as [bs'|]; [|discriminate].
    injection H as <-. simpl. now rewrite (IH bs').
Qed.

End Traverse.

Section CollectProofs.

Variable pam : string -> string -> option net.IPNet.

Lemma appendSubnets_traverse (ps : list string) (acc : list net.IPNet) :
  returned (appendSubnets pam ps acc) =
  option_map (app acc)
    (Spec.traverse (Spec.parseNet pam) (map (fun p => strings.Trim p " ") ps)).
Proof.
  revert acc; induction ps as [|p ps IH]; intros acc; simpl.
  - now rewrite app_nil_r.
  - unfold Spec.parseNet at 1.
    destruct (net.ParseCIDR pam (strings.Trim p " ")) as [n|e]; simpl; [|reflexivity].
    rewrite IH. destruct (Spec.traverse _ _); simpl; [|reflexivity].
    now rewrite <- app_assoc.
Qed.

Lemma collectFrom_spec (env : list string) (acc : list net.IPNet) :
  returned (collectFrom pam env acc) =
  option_map (app acc) (Spec.protectedSubnets pam env).
Proof.
  revert acc; induction env as [|e env IH]; intros acc.
  - simpl. now rewrite app_nil_r.
  - unfold Spec.protectedSubnets in *. cbn [collectFrom filter].
    unfold Spec.designated at 1, Spec.envName, strings.SplitN2.
    destruct (strings.cut "=" e) as [[name value]|] eqn:Hcut; cbn [elemAt nth_error bind].
    + destruct (strings.Contains name "PROTECTED_SUBNET_").
      * cbn [Spec.traverse]. unfold Spec.envValue at 1. rewrite Hcut.
        pose proof (appendSubnets_traverse (strings.Split value ",") acc) as Ha.
        destruct (appendSubnets pam (strings.Split value ",") acc) as [acc'|v];
          cbn [bind returned] in *.
        -- rewrite IH.
           destruct (Spec.traverse Spec.envValue (filter Spec.designated env))
             as [values|]; [|reflexivity].
           cbn [map concat]. rewrite traverse_app. fold (Spec.pieces value) in Ha.
           destruct (Spec.traverse (Spec.parseNet pam) (Spec.pieces value)) as [l1|];
             [|discriminate].
           injection Ha as ->.
           destruct (Spec.traverse (Spec.parseNet pam) (concat (map Spec.pieces values)));
             simpl; [|reflexivity].
           now rewrite app_assoc.
        -- destruct (Spec.traverse Spec.envValue (filter Spec.designated env))
             as [values|]; [|reflexivity].
           cbn [map concat]. rewrite traverse_app. fold (Spec.pieces value) in Ha.
           destruct (Spec.traverse (Spec.parseNet pam) (Spec.pieces value)) as [l1|];
             [discriminate | reflexivity].
      * apply IH.
    + destruct (strings.Contains e "PROTECTED_SUBNET_").
      * cbn [Spec.traverse]. unfold Spec.envValue at 1. now rewrite Hcut.
      * apply IH.
Qed.

Lemma protectedSubnets_In (env : list string) (l : list net.IPNet) (e : string) :
  Spec.protectedSubnets pam env = Some l ->
  In e env -> Spec.designated e = true ->
  exists value, Spec.envValue e = Some value /\
    forall p, In p (Spec.pieces value) ->
      exists n, net.ParseCIDR pam p = Ok n /\ In n l.
Proof.
  unfold Spec.protectedSubnets. intros H Hin Hd.
  destruct (Spec.traverse Spec.envValue (filter Spec.designated env)) as [values|] eqn:Hv;
    [|discriminate].
  destruct (traverse_In _ _ _ e Hv) as [value [Hval Hinv]].
  { apply filter_In. now split. }
  exists value. split; [assumption|]. intros p Hp.
  destruct (traverse_In _ _ _ p H) as [n [Hn Hl]].
  { apply in_concat. exists (Spec.pieces value). split; [|assumption].
    now apply in_map. }
  exists n. split; [|assumption].
  unfold Spec.parseNet in Hn. destruct (net.ParseCIDR pam p); congruence.
Qed.

Lemma protectedSubnets_In_inv (env : list string) (l : list net.IPNet) (n : net.IPNet) :
  Spec.protectedSubnets pam env = Some l -> In n l ->
  exists e value p,
    In e env /\ Spec.designated e = true /\ Spec.envValue e = Some value /\
    In p (Spec.pieces value) /\ net.ParseCIDR pam p = Ok n.
Proof.
  unfold Spec.protectedSubnets. intros H Hin.
  destruct (Spec.traverse Spec.envValue (filter Spec.designated env)) as [values|] eqn:Hv;
    [|discriminate].
  destruct (traverse_In_inv _ _ _ n H Hin) as [p [Hp Hn]].
  apply in_concat in Hp. destruct Hp as [ps [Hps Hp]].
  apply in_map_iff in Hps. destruct Hps as [value [<- Hval]].
  destruct (traverse_In_inv _ _ _ value Hv Hval) as [e [He Hev]].
  apply filter_In in He. destruct He as [He Hd].
  exists e, value, p. repeat split; try assumption.
  unfold Spec.parseNet in Hn. destruct (net.ParseCIDR pam p); congruence.
Qed.

End CollectProofs.

Lemma returned_collectProtectedSubnets
    (pam : string -> string -> option net.IPNet) (env : list string) :
  returned (collectProtectedSubnets pam env) = Spec.protectedSubnets pam env.
Proof.
  unfold collectProtectedSubnets. rewrite collectFrom_spec.
  now destruct (Spec.protectedSubnets pam env).
Qed.

(** C3. What [collectProtectedSubnets] returns is the list the
    specification describes: the designated variables in the order of the
    environment, the comma-separated pieces of each value in their order,
    each trimmed of spaces and parsed as a CIDR network. *)
Theorem collectProtectedSubnets_refines
    (pam : string -> string -> option net.IPNet) (env : list string) :
  returned (collectProtectedSubnets pam env) = Spec.protectedSubnets pam env /\
  (forall l, collectProtectedSubnets pam env = Ret l <->
             Spec.protectedSubnets pam env = Some l) /\
  (panics (collectProtectedSubnets pam env) <-> Spec.protectedSubnets pam env = None).
Proof.
  pose proof (returned_collectProtectedSubnets pam env) as H.
  split; [exact H|]. split.
  - intros l. rewrite <- H. symmetry. apply returned_Some.
  - rewrite <- H. symmetry. apply returned_None.
Qed.

Lemma collectProtectedSubnets_refines_witness :
  collectProtectedSubnets net.parseAddrMask4
    ["PROTECTED_SUBNET_A=10.0.0.0/8, 192.168.0.0/16"; "PATH=/bin"]
  = Ret [ {| net.ip := [10; 0; 0; 0]; net.Mask := [255; 0; 0; 0] |};
          {| net.ip := [192; 168; 0; 0]; net.Mask := [255; 255; 0; 0] |} ].
Proof.
  apply (proj1 (proj2 (collectProtectedSubnets_refines net.parseAddrMask4
           ["PROTECTED_SUBNET_A=10.0.0.0/8, 192.168.0.0/16"; "PATH=/bin"]))).
  reflexivity.
Defined.

Example collectProtectedSubnets_order :
  collectProtectedSubnets net.parseAddrMask4
    ["HOME=/root"; "PROTECTED_SUBNET_B=10.1.2.3/8 , 192.168.1.0/24";
     "TARGET_TABLE=100"; "PROTECTED_SUBNET_A=172.16.0.0/12"]
  = Ret [ {| net.ip := [10; 0; 0; 0]; net.Mask := [255; 0; 0; 0] |};
          {| net.ip := [192; 168; 1; 0]; net.Mask := [255; 255; 255; 0] |};
          {| net.ip := [172; 16; 0; 0]; net.Mask := [255; 240; 0; 0] |} ].
Proof. reflexivity. Qed.

Lemma appendSubnets_panic_nonnil pam ps acc v :
  appendSubnets pam ps acc = Panic v -> v <> AnyNil.
Proof.
  revert acc; induction ps as [|p ps IH]; intros acc; simpl; [discriminate|].
  destruct (net.ParseCIDR pam _); [apply IH|].
  intros H; injection H as <-; discriminate.
Qed.

Lemma collectFrom_panic_nonnil pam env acc v :
  collectFrom pam env acc = Panic v -> v <> AnyNil.
Proof.
  revert acc; induction env as [|e env IH]; intros acc; [discriminate|].
  cbn [collectFrom]. unfold strings.SplitN2.
  destruct (strings.cut "=" e) as [[name value]|]; cbn [elemAt nth_error bind].
  - destruct (strings.Contains name "PROTECTED_SUBNET_"); [|apply IH].
    destruct (appendSubnets pam (strings.Split value ",") acc) as [acc'|v'] eqn:Ha;
      cbn [bind]; [apply IH|].
    intros H; injection H as <-. now apply appendSubnets_panic_nonnil in Ha.
  - destruct (strings.Contains e "PROTECTED_SUBNET_"); [|apply IH].
    intros H; injection H as <-; discriminate.
Qed.

Lemma collectProtectedSubnets_panic_nonnil pam env v :
  collectProtectedSubnets pam env = Panic v -> v <> AnyNil.
Proof. apply collectFrom_panic_nonnil. Qed.

Lemma collectFrom_filter pam env acc :
  collectFrom pam env acc = collectFrom pam (filter Spec.designated env) acc.
Proof.
  revert acc; induction env as [|e env IH]; intros acc; [reflexivity|].
  cbn [filter]. destruct (Spec.designated e) eqn:Hd.
  - cbn [collectFrom]. unfold Spec.designated, Spec.envName in Hd.
    unfold strings.SplitN2.
    destruct (strings.cut "=" e) as [[name value]|]; cbn [elemAt nth_error bind];
      rewrite Hd; [|reflexivity].
    destruct (appendSubnets pam (strings.Split value ",") acc); cbn [bind];
      [apply IH | reflexivity].
  - cbn [collectFrom]. unfold Spec.designated, Spec.envName in Hd.
    unfold strings.SplitN2.
    destruct (strings.cut "=" e) as [[name value]|]; cbn [elemAt nth_error bind];
      rewrite Hd; apply IH.
Qed.

(** A piece that does not parse, in a designated variable, stops the
    collection. *)
Lemma unparsable_piece_panics pam env e value piece err :
  In e env -> Spec.designated e = true -> Spec.envValue e = Some value ->
  In piece (strings.Split value ",") ->
  net.ParseCIDR pam (strings.Trim piece " ") = Err err ->
  panics (collectProtectedSubnets pam env).
Proof.
  intros Hin Hd Hv Hp Herr. apply returned_None.
  unfold collectProtectedSubnets. rewrite collectFrom_spec.
  destruct (Spec.protectedSubnets pam env) as [l|] eqn:Hs; [|reflexivity].
  destruct (protectedSubnets_In pam env l e Hs Hin Hd) as [value' [Hv' Hall]].
  assert (value' = value) by congruence. subst value'.
  destruct (Hall (strings.Trim piece " ")) as [n [Hn _]].
  { unfold Spec.pieces. now apply (in_map (fun p => strings.Trim p " ")). }
  congruence.
Qed.

(** ** mainImpl *)

Lemma registerStaticRoute_shape (params : mainImplParams) (mgr : Manager)
    (hostname : string) (table : Z) (ps : list net.IPNet) (resources : list APIResource) :
  registerStaticRoute params mgr hostname table ps resources = ([], Ret false) \/
  exists opts r,
    registerStaticRoute params mgr hostname table ps resources =
      ([EvNewRouterManager (OptRouteManager opts); EvGoRun (OptRouteManager opts);
        EvAddStaticRouteController opts], r) /\
    OptTable opts = table /\ ProtectedSubnets opts = ps /\ Hostname opts = hostname /\
    (r = Ret true \/ exists e, r = Panic (AnyError e)).
Proof.
  induction resources as [|resource rest IH]; [now left|].
  cbn [registerStaticRoute].
  destruct (negb (Kind resource =? "StaticRoute")%string); [exact IH|].
  right.
  exists {| Hostname := hostname; OptTable := table; ProtectedSubnets := ps;
            OptRouteManager := newRouterManager params tt; GetGw := paramGetGw params |}.
  cbn. destruct (addStaticRouteController params mgr _) as [e|]; cbn.
  - eexists. split; [reflexivity|]. repeat split. right. now exists e.
  - eexists. split; [reflexivity|]. repeat split. now left.
Qed.

Lemma registerStaticRoute_none params mgr hostname table ps resources :
  existsb isStaticRoute resources = false <->
  registerStaticRoute params mgr hostname table ps resources = ([], Ret false).
Proof.
  induction resources as [|resource rest IH]; [now split|].
  cbn [registerStaticRoute existsb]. unfold isStaticRoute at 1.
  destruct (Kind resource =? "StaticRoute")%string; cbn [negb orb]; [|exact IH].
  split; [discriminate|]. cbn.
  destruct (addStaticRouteController params mgr _); discriminate.
Qed.

Lemma registerStaticRoute_eq params mgr table ps rs :
  registerStaticRoute params mgr (getEnv params "NODE_HOSTNAME") table ps rs =
  if existsb isStaticRoute rs then
    (Startup.registration params table ps,
     match addStaticRouteController params mgr (Startup.options params table ps) with
     | Some e => Panic (AnyError e)
     | None => Ret true
     end)
  else ([], Ret false).
Proof.
  induction rs as [|resource rest IH]; [reflexivity|].
  cbn [registerStaticRoute existsb]. unfold isStaticRoute at 1.
  destruct (Kind resource =? "StaticRoute")%string; cbn [negb orb]; [|exact IH].
  cbn. fold (Startup.options params table ps).
  now destruct (addStaticRouteController params mgr (Startup.options params table ps)).
Qed.

Ltac early_stop :=
  left; repeat split; eexists; repeat split; [discriminate|].

(** How a run of [mainImpl] can end: before the table is chosen; after it,
    on the protected subnets or for want of the StaticRoute kind; or with
    the controller registered. *)
Lemma mainImpl_cases pam params :
  let t := fst (mainImpl pam params) in
  let r := snd (mainImpl pam params) in
  (stoppedEarly t /\ tablesSelected t = [] /\
   exists v, r = Panic v /\ v <> AnyNil /\
     (returned (selectTable (getEnv params)) = None \/
      getEnv params "NODE_HOSTNAME" = "" \/ exists e, v = AnyError e)) \/
  (stoppedEarly t /\
   exists table, selectTable (getEnv params) = Ret table /\ tablesSelected t = [table] /\
     getEnv params "NODE_HOSTNAME" <> "" /\
     ((exists v, collectProtectedSubnets pam (osEnv params) = Panic v /\
                 v <> AnyNil /\ r = Panic v) \/
      (exists ps, collectProtectedSubnets pam (osEnv params) = Ret ps /\
         existsb isStaticRoute (discovered params) = false /\ r = Panic AnyNil))) \/
  (exists table ps opts,
     selectTable (getEnv params) = Ret table /\
     collectProtectedSubnets pam (osEnv params) = Ret ps /\
     getEnv params "NODE_HOSTNAME" <> "" /\
     existsb isStaticRoute (discovered params) = true /\
     tablesSelected t = [table] /\
     created t = [OptRouteManager opts] /\
     started t = [OptRouteManager opts] /\
     controllerOptions t = [opts] /\
     OptTable opts = table /\ ProtectedSubnets opts = ps /\
     (r = Ret tt \/ exists e, r = Panic (AnyError e))).
Proof.
  unfold mainImpl, discovered, stoppedEarly.
  destruct (getConfig params) as [cfg [e|]]; cbn.
  { early_stop. right; right. now eexists. }
  destruct (newManager params cfg) as [mgr [e|]]; cbn.
  { early_stop. right; right. now eexists. }
  destruct (addToScheme params mgr) as [e|]; cbn.
  { early_stop. right; right. now eexists. }
  destruct (getEnv params "NODE_HOSTNAME" =? "")%string eqn:Hh; cbn.
  { early_stop. right; left. now apply String.eqb_eq. }
  apply String.eqb_neq in Hh.
  destruct (newKubernetesConfig params cfg) as [cs [e|]]; cbn.
  { early_stop. right; right. now eexists. }
  destruct (ServerResourcesForGroupVersion params cs _) as [rs [e|]]; cbn.
  { early_stop. right; right. now eexists. }
  destruct (selectTable (getEnv params)) as [table|v] eqn:Ht; cbn.
  2:{ left. repeat split. exists v. repeat split; [|now left].
      unfold selectTable, parseTargetTable in Ht.
      destruct (negb _); [|discriminate].
      destruct (strconv.Atoi _); [destruct (_ || _)|];
        [|discriminate|]; injection Ht as <-; discriminate. }
  right.
  destruct (collectProtectedSubnets pam (osEnv params)) as [ps|v] eqn:Hc; cbn.
  2:{ left. repeat split. exists table. repeat split; [assumption|]. left.
      exists v. repeat split.
      now apply (collectProtectedSubnets_panic_nonnil pam (osEnv params)). }
  destruct (existsb isStaticRoute rs) eqn:Hrs.
  - right.
    destruct (registerStaticRoute_shape params mgr (getEnv params "NODE_HOSTNAME")
                table ps rs) as [H | (opts & r & H & Ho1 & Ho2 & Ho3 & Hr)].
    { apply registerStaticRoute_none in H. congruence. }
    rewrite H. exists table, ps, opts.
    destruct Hr as [-> | [e ->]]; cbn.
    + destruct (addNodeController params mgr) as [e|]; cbn.
      { repeat split; try assumption. right. now exists e. }
      destruct (mgrStart params mgr) as [e|]; cbn.
      { repeat split; try assumption. right. now exists e. }
      repeat split; try assumption. now left.
    + repeat split; try assumption. right. now exists e.
  - left.
    apply (registerStaticRoute_none params mgr (getEnv params "NODE_HOSTNAME") table ps)
      in Hrs.
    rewrite Hrs. cbn. repeat split. exists table. repeat split; [assumption|].
    right. exists ps. repeat split.
Qed.

Lemma goroutinePanic_not_started run (t : list event) :
  started t = [] -> goroutinePanic run t = None.
Proof.
  induction t as [|e t IH]; [reflexivity|].
  destruct e; cbn [started flat_map app goroutinePanic]; try discriminate;
    intros H; now rewrite (IH H).
Qed.

Lemma started_mainGoroutine (panicnil : bool) pam params :
  started (fst (mainGoroutine panicnil pam params)) = started (fst (mainImpl pam params)).
Proof.
  unfold mainGoroutine. destruct (mainImpl pam params) as [t [a|v]]; [reflexivity|].
  cbv zeta. destruct (negb (is_nil (recover panicnil v))); [|reflexivity].
  cbn [fst]. unfold started. rewrite flat_map_app. apply app_nil_r.
Qed.

(** With no goroutine started, the main goroutine is the whole process. *)
Lemma main_without_goroutine (panicnil : bool) pam params :
  started (fst (mainImpl pam params)) = [] ->
  main panicnil pam params = mainGoroutine panicnil pam params.
Proof.
  intros H. rewrite <- (started_mainGoroutine panicnil) in H. unfold main.
  destruct (mainGoroutine panicnil pam params) as [t status]. cbn [fst] in H.
  now rewrite (goroutinePanic_not_started _ t H).
Qed.

Lemma main_status_of_panic (panicnil : bool) pam params v :
  started (fst (mainImpl pam params)) = [] ->
  snd (mainImpl pam params) = Panic v -> v <> AnyNil ->
  snd (main panicnil pam params) = 1.
Proof.
  intros Hs. rewrite (main_without_goroutine panicnil pam params Hs).
  unfold mainGoroutine. destruct (mainImpl pam params) as [t [a|v']]; simpl; [discriminate|].
  intros H Hv. injection H as ->. now destruct v.
Qed.

(** A panic on the protected subnets ends [mainImpl] before any controller
    is given a collection, and the process with status 1. *)
Lemma collect_panic_is_fatal pam params :
  panics (collectProtectedSubnets pam (osEnv params)) ->
  panics (snd (mainImpl pam params)) /\
  stoppedEarly (fst (mainImpl pam params)) /\
  forall panicnil, snd (main panicnil pam params) = 1.
Proof.
  intros [v0 Hp].
  destruct (mainImpl_cases pam params)
    as [(Hs & _ & v & Hr & Hv & _)
       | [(Hs & table & _ & _ & _ & [(v & Hc & Hv & Hr) | (ps & Hc & _)])
         | (table & ps & opts & _ & Hc & _)]]; try congruence.
  - split; [now exists v|]. split; [assumption|].
    intros b. apply (main_status_of_panic b pam params v); try assumption. apply Hs.
  - split; [now exists v|]. split; [assumption|].
    intros b. apply (main_status_of_panic b pam params v); try assumption. apply Hs.
Qed.

(** ** The claims on the protected subnets *)

(** C4. When a CIDR block of a protected-subnet variable does not parse,
    [collectProtectedSubnets] does not return: it panics, [mainImpl] panics
    before any controller receives a collection, and the process exits
    with status 1. Whenever it does return, the list is the complete one
    of the specification. *)
Theorem unparsable_subnet_is_fatal
    (pam : string -> string -> option net.IPNet) (env : list string) :
  (panics (collectProtectedSubnets pam env) \/
   exists l, collectProtectedSubnets pam env = Ret l /\
             Spec.protectedSubnets pam env = Some l) /\
  (forall e value piece err,
     In e env -> Spec.designated e = true -> Spec.envValue e = Some value ->
     In piece (strings.Split value ",") ->
     net.ParseCIDR pam (strings.Trim piece " ") = Err err ->
     panics (collectProtectedSubnets pam env) /\
     returned (collectProtectedSubnets pam env) = None /\
     forall params, osEnv params = env ->
       panics (snd (mainImpl pam params)) /\
       controllerOptions (fst (mainImpl pam params)) = [] /\
       forall panicnil, snd (main panicnil pam params) = 1).
Proof.
  split.
  - destruct (collectProtectedSubnets pam env) as [l|v] eqn:Hc.
    + right. exists l. split; [reflexivity|].
      unfold collectProtectedSubnets in Hc.
      pose proof (collectFrom_spec pam env []) as Hs. rewrite Hc in Hs.
      destruct (Spec.protectedSubnets pam env); simpl in Hs; congruence.
    + left. now exists v.
  - intros e value piece err Hin Hd Hv Hp Herr.
    pose proof (unparsable_piece_panics pam env e value piece err Hin Hd Hv Hp Herr) as P.
    split; [exact P|]. split; [now apply returned_None|].
    intros params <-.
    destruct (collect_panic_is_fatal pam params P) as (H1 & (_ & _ & H2) & H3).
    now repeat split.
Qed.

Lemma unparsable_subnet_is_fatal_witness :
  panics (collectProtectedSubnets net.parseAddrMask4
            ["HOME=/root"; "PROTECTED_SUBNET_A=10.0.0.0/8,bogus"]) /\
  snd (main true net.parseAddrMask4
         (Sample.params Sample.env ["HOME=/root"; "PROTECTED_SUBNET_A=10.0.0.0/8,bogus"]
            [Sample.staticRoute])) = 1.
Proof.
  pose proof (proj2 (unparsable_subnet_is_fatal net.parseAddrMask4
                ["HOME=/root"; "PROTECTED_SUBNET_A=10.0.0.0/8,bogus"])
              "PROTECTED_SUBNET_A=10.0.0.0/8,bogus" "10.0.0.0/8,bogus" "bogus"
              (ParseError "CIDR address" "bogus")
              (or_intror (or_introl eq_refl)) eq_refl eq_refl
              (or_intror (or_introl eq_refl)) eq_refl) as [H1 [_ H2]].
  split; [exact H1|].
  exact (proj2 (proj2 (H2 (Sample.params Sample.env
                             ["HOME=/root"; "PROTECTED_SUBNET_A=10.0.0.0/8,bogus"]
                             [Sample.staticRoute]) eq_refl)) true).
Defined.

(** C9. A variable is selected when its name, the text before the first
    [=], contains PROTECTED_SUBNET_ anywhere. The collection is computed
    from the selected variables alone, every piece of every selected
    variable is in it, and every member of it comes from a selected
    variable. *)
Theorem protected_subnet_marker_anywhere
    (pam : string -> string -> option net.IPNet) (env : list string) :
  (forall e, Spec.designated e = true <-> Spec.hasMarker (Spec.envName e)) /\
  collectProtectedSubnets pam env = collectProtectedSubnets pam (filter Spec.designated env) /\
  (forall l e,
     collectProtectedSubnets pam env = Ret l ->
     In e env -> Spec.hasMarker (Spec.envName e) ->
     exists value, Spec.envValue e = Some value /\
       forall p, In p (Spec.pieces value) ->
         exists n, net.ParseCIDR pam p = Ok n /\ In n l) /\
  (forall l n,
     collectProtectedSubnets pam env = Ret l -> In n l ->
     exists e value p,
       In e env /\ Spec.hasMarker (Spec.envName e) /\ Spec.envValue e = Some value /\
       In p (Spec.pieces value) /\ net.ParseCIDR pam p = Ok n).
Proof.
  split; [exact designated_iff|]. split; [apply collectFrom_filter|]. split.
  - intros l e Hc Hin Hm. apply designated_iff in Hm.
    apply (protectedSubnets_In pam env l e); try assumption.
    rewrite <- returned_collectProtectedSubnets, Hc. reflexivity.
  - intros l n Hc Hin.
    destruct (protectedSubnets_In_inv pam env l n) as (e & value & p & H1 & H2 & H3);
      [rewrite <- returned_collectProtectedSubnets, Hc; reflexivity | assumption |].
    exists e, value, p. split; [assumption|]. split; [|assumption].
    now apply designated_iff.
Qed.

Lemma protected_subnet_marker_anywhere_witness :
  exists value,
    Spec.envValue "X_PROTECTED_SUBNET_Y=10.0.0.0/8" = Some value /\
    forall p, In p (Spec.pieces value) ->
      exists n, net.ParseCIDR net.parseAddrMask4 p = Ok n /\
                In n [ {| net.ip := [10; 0; 0; 0]; net.Mask := [255; 0; 0; 0] |} ].
Proof.
  apply (proj1 (proj2 (proj2 (protected_subnet_marker_anywhere net.parseAddrMask4
           ["X_PROTECTED_SUBNET_Y=10.0.0.0/8"; "PROTECTED_SUBNETS=bogus"])))).
  - reflexivity.
  - left. reflexivity.
  - exists "X_", "Y". reflexivity.
Defined.

Example marker_in_value_only :
  collectProtectedSubnets net.parseAddrMask4 ["NOTE=PROTECTED_SUBNET_1"] = Ret [].
Proof. reflexivity. Qed.

(** C10. A selected variable with an empty value stops start-up: the one
    piece of the empty value is empty, the empty text is no CIDR network,
    and the panic ends the process with status 1. *)
Theorem empty_protected_subnet_is_fatal
    (pam : string -> string -> option net.IPNet) (env : list string) (e : string) :
  In e env -> Spec.hasMarker (Spec.envName e) -> Spec.envValue e = Some "" ->
  strings.Split "" "," = [""] /\
  net.ParseCIDR pam (strings.Trim "" " ") = Err (ParseError "CIDR address" "") /\
  collectProtectedSubnets pam [e] = Panic (AnyError (ParseError "CIDR address" "")) /\
  panics (collectProtectedSubnets pam env) /\
  collectProtectedSubnets pam env <> Ret [] /\
  forall params panicnil, osEnv params = env -> snd (main panicnil pam params) = 1.
Proof.
  intros Hin Hm Hv. apply designated_iff in Hm.
  assert (P : panics (collectProtectedSubnets pam env)).
  { apply (unparsable_piece_panics pam env e "" ""
             (ParseError "CIDR address" "")); try assumption; [now left | reflexivity]. }
  split; [reflexivity|]. split; [reflexivity|]. split; [|split; [exact P|split]].
  - unfold collectProtectedSubnets. cbn [collectFrom].
    unfold Spec.designated, Spec.envName, Spec.envValue in *. unfold strings.SplitN2.
    destruct (strings.cut "=" e) as [[name value]|]; [|discriminate].
    injection Hv as ->. cbn [elemAt nth_error bind]. rewrite Hm. reflexivity.
  - destruct P as [v Hp]. congruence.
  - intros params b <-. now apply collect_panic_is_fatal.
Qed.

Lemma empty_protected_subnet_is_fatal_witness :
  panics (collectProtectedSubnets net.parseAddrMask4
            ["PROTECTED_SUBNET_A=10.0.0.0/8"; "PROTECTED_SUBNET_B="]) /\
  snd (main true net.parseAddrMask4
         (Sample.params Sample.env ["PROTECTED_SUBNET_A=10.0.0.0/8"; "PROTECTED_SUBNET_B="]
            [Sample.staticRoute])) = 1.
Proof.
  pose proof (empty_protected_subnet_is_fatal net.parseAddrMask4
                ["PROTECTED_SUBNET_A=10.0.0.0/8"; "PROTECTED_SUBNET_B="]
                "PROTECTED_SUBNET_B="
                (or_intror (or_introl eq_refl))
                (ex_intro _ "" (ex_intro _ "B" eq_refl)) eq_refl)
    as (_ & _ & _ & H1 & _ & H2).
  split; [exact H1|].
  exact (H2 (Sample.params Sample.env
               ["PROTECTED_SUBNET_A=10.0.0.0/8"; "PROTECTED_SUBNET_B="]
               [Sample.staticRoute]) true eq_refl).
Defined.

(** ** getGw *)

(** C5. [getGw] answers from the kernel's lookup for the destination: the
    nil gateway and the lookup's error when the lookup fails, the gateway
    of the first route when it succeeds. *)
Theorem getGw_lookup (RouteGet : net.IP -> result (list Route)) (ip : net.IP) :
  (forall err, RouteGet ip = Err err -> getGw RouteGet ip = Ret ([], Some err)) /\
  (forall r rest, RouteGet ip = Ok (r :: rest) -> getGw RouteGet ip = Ret (Gw r, None)) /\
  (forall RouteGet' : net.IP -> result (list Route),
     RouteGet' ip = RouteGet ip -> getGw RouteGet' ip = getGw RouteGet ip).
Proof.
  unfold getGw. repeat split.
  - now intros err ->.
  - now intros r rest ->.
  - now intros RouteGet' ->.
Qed.

Lemma getGw_lookup_witness :
  getGw (fun _ => Ok [ {| LinkIndex := 2; Gw := [192; 168; 0; 1]; Table := 254 |};
                       {| LinkIndex := 3; Gw := [10; 0; 0; 1]; Table := 254 |} ])
        [8; 8; 8; 8]
  = Ret ([192; 168; 0; 1], None) /\
  getGw (fun _ => Err (OtherError "network is unreachable")) [8; 8; 8; 8]
  = Ret ([], Some (OtherError "network is unreachable")).
Proof.
  split.
  - apply (proj1 (proj2 (getGw_lookup _ [8; 8; 8; 8]))
             {| LinkIndex := 2; Gw := [192; 168; 0; 1]; Table := 254 |}
             [ {| LinkIndex := 3; Gw := [10; 0; 0; 1]; Table := 254 |} ]).
    reflexivity.
  - apply (proj1 (getGw_lookup _ [8; 8; 8; 8]) (OtherError "network is unreachable")).
    reflexivity.
Defined.

(** C8. [getGw] reads the first route unchecked: when the lookup answers
    with a nil error and no route, it panics with an index out of range
    and returns nothing, no error value either. *)
Theorem getGw_empty_result_panics (RouteGet : net.IP -> result (list Route)) (ip : net.IP) :
  RouteGet ip = Ok [] ->
  getGw RouteGet ip = Panic (AnyRuntimeError "index out of range") /\
  returned (getGw RouteGet ip) = None.
Proof. unfold getGw. intros ->. split; reflexivity. Qed.

Lemma getGw_empty_result_panics_witness :
  getGw (fun _ => Ok []) [8; 8; 8; 8] = Panic (AnyRuntimeError "index out of range").
Proof.
  apply (proj1 (getGw_empty_result_panics (fun _ => Ok []) [8; 8; 8; 8] eq_refl)).
Defined.

(** ** The table, the route manager and the exit status *)

(** C6. With TARGET_TABLE unset the table is 254: [parseTargetTable],
    which would panic on the empty text, is not called, and 254 is the
    table logged and handed to the static route controller. *)
Theorem default_table_when_unset
    (pam : string -> string -> option net.IPNet) (params : mainImplParams) :
  getEnv params "TARGET_TABLE" = "" ->
  defaultRouteTable = 254 /\
  selectTable (getEnv params) = Ret 254 /\
  panics (parseTargetTable (getEnv params "TARGET_TABLE")) /\
  Forall (fun table => table = 254) (tablesSelected (fst (mainImpl pam params))) /\
  Forall (fun opts => OptTable opts = 254) (controllerOptions (fst (mainImpl pam params))).
Proof.
  intros He.
  assert (Hs : selectTable (getEnv params) = Ret 254).
  { unfold selectTable. now rewrite He. }
  split; [reflexivity|]. split; [exact Hs|]. split.
  { rewrite He. eexists; reflexivity. }
  destruct (mainImpl_cases pam params)
    as [((_ & _ & Ho) & Ht & _)
       | [((_ & _ & Ho) & table & Hsel & Ht & _)
         | (table & ps & opts & Hsel & _ & _ & _ & Ht & _ & _ & Ho & Htab & _)]];
    rewrite Ht, Ho; repeat constructor; congruence.
Qed.

Lemma default_table_when_unset_witness :
  selectTable Sample.env = Ret 254 /\
  Forall (fun opts => OptTable opts = 254)
    (controllerOptions (fst (mainImpl net.parseAddrMask4
       (Sample.params Sample.env [] [Sample.staticRoute])))).
Proof.
  pose proof (default_table_when_unset net.parseAddrMask4
                (Sample.params Sample.env [] [Sample.staticRoute]) eq_refl)
    as (_ & H1 & _ & _ & H2).
  split; [exact H1 | exact H2].
Defined.

Example table_when_set :
  selectTable (fun name => if String.eqb name "TARGET_TABLE" then "100" else "") = Ret 100.
Proof. reflexivity. Qed.

(** C7. Whatever the collaborators answer and however many resources are
    listed, [mainImpl] calls [newRouterManager] at most once, and starts
    one goroutine running [Run] for the instance it got and none else; the
    controller is given that instance. When start-up reaches the resource
    loop and a resource of kind StaticRoute is listed, the instance is
    created and its [Run] started, once, the goroutine right after the
    creation. *)
Theorem one_route_manager_one_run
    (pam : string -> string -> option net.IPNet) (params : mainImplParams) :
  let t := fst (mainImpl pam params) in
  (length (created t) <= 1)%nat /\
  started t = created t /\
  map OptRouteManager (controllerOptions t) = created t /\
  (existsb isStaticRoute (discovered params) = false -> created t = []) /\
  (snd (getConfig params) = None ->
   snd (newManager params (fst (getConfig params))) = None ->
   addToScheme params (fst (newManager params (fst (getConfig params)))) = None ->
   getEnv params "NODE_HOSTNAME" <> "" ->
   snd (newKubernetesConfig params (fst (getConfig params))) = None ->
   snd (ServerResourcesForGroupVersion params
          (fst (newKubernetesConfig params (fst (getConfig params))))
          "static-route.ibm.com/v1") = None ->
   returned (selectTable (getEnv params)) <> None ->
   returned (collectProtectedSubnets pam (osEnv params)) <> None ->
   existsb isStaticRoute (discovered params) = true ->
   created t = [newRouterManager params tt] /\
   started t = [newRouterManager params tt] /\
   exists before after,
     t = (before ++ [EvNewRouterManager (newRouterManager params tt);
                     EvGoRun (newRouterManager params tt)] ++ after)%list /\
     created before = [] /\ started before = [] /\
     created after = [] /\ started after = []).
Proof.
  cbv zeta. split; [|split; [|split; [|split]]].
  1-4: destruct (mainImpl_cases pam params)
    as [((Hc & Hs & Ho) & _)
       | [((Hc & Hs & Ho) & _)
         | (table & ps & opts & _ & _ & _ & Hk & _ & Hc & Hs & Ho & _)]];
    rewrite ?Hc, ?Hs, ?Ho; simpl; try lia; congruence.
  unfold mainImpl, discovered.
  destruct (getConfig params) as [cfg e1]; cbn [fst snd]. intros ->.
  destruct (newManager params cfg) as [mgr e2]; cbn [fst snd]. intros -> ->.
  intros Hh. apply String.eqb_neq in Hh. rewrite Hh.
  destruct (newKubernetesConfig params cfg) as [cs e3]; cbn [fst snd]. intros ->.
  destruct (ServerResourcesForGroupVersion params cs _) as [rs e4]; cbn [fst snd].
  intros ->.
  destruct (selectTable (getEnv params)) as [table|]; [intros _ | now intros H].
  destruct (collectProtectedSubnets pam (osEnv params)) as [ps|]; [intros _ | now intros H].
  intros Hrs. cbn [panicIf tbind tret tpanic emit lift app].
  rewrite (registerStaticRoute_eq params mgr table ps rs), Hrs.
  split; [|split].
  1-2: destruct (addStaticRouteController params mgr (Startup.options params table ps));
    [reflexivity|];
    destruct (addNodeController params mgr); [reflexivity|];
    destruct (mgrStart params mgr); reflexivity.
  exists (Startup.prelude params table).
  destruct (addStaticRouteController params mgr (Startup.options params table ps)).
  { eexists. split; [reflexivity | now repeat split]. }
  destruct (addNodeController params mgr).
  { eexists. split; [reflexivity | now repeat split]. }
  destruct (mgrStart params mgr);
    (eexists; split; [reflexivity | now repeat split]).
Qed.

Lemma one_route_manager_one_run_witness :
  let t := fst (mainImpl net.parseAddrMask4
             (Sample.params Sample.env ["PROTECTED_SUBNET_A=10.0.0.0/8"]
                [Sample.other; Sample.staticRoute; Sample.staticRoute; Sample.staticRoute])) in
  created t = [mkRouteManager 0] /\ started t = [mkRouteManager 0].
Proof.
  cbv zeta.
  destruct (proj2 (proj2 (proj2 (proj2 (one_route_manager_one_run net.parseAddrMask4
     (Sample.params Sample.env ["PROTECTED_SUBNET_A=10.0.0.0/8"]
        [Sample.other; Sample.staticRoute; Sample.staticRoute; Sample.staticRoute])))))
     eq_refl eq_refl eq_refl ltac:(discriminate) eq_refl eq_refl
     ltac:(discriminate) ltac:(discriminate) eq_refl) as (H1 & H2 & _).
  split; [exact H1 | exact H2].
Defined.

Example several_static_route_resources :
  let t := fst (mainImpl net.parseAddrMask4
             (Sample.params Sample.env []
                [Sample.other; Sample.staticRoute; Sample.staticRoute; Sample.staticRoute])) in
  created t = [mkRouteManager 0] /\ started t = [mkRouteManager 0].
Proof. split; reflexivity. Qed.

(** Every start-up failure with a panic operand that is not nil ends the
    process with status 1: a missing NODE_HOSTNAME, a bad table id, a
    protected subnet that does not parse, a collaborator's error. *)
Lemma configuration_errors_exit_1
    (panicnil : bool) (pam : string -> string -> option net.IPNet)
    (params : mainImplParams) :
  getEnv params "NODE_HOSTNAME" = "" \/
  panics (selectTable (getEnv params)) \/
  panics (collectProtectedSubnets pam (osEnv params)) ->
  snd (main panicnil pam params) = 1.
Proof.
  intros H.
  destruct (mainImpl_cases pam params)
    as [(Hs & _ & v & Hr & Hv & _)
       | [(Hs & table & Hsel & _ & Hh & [(v & Hc & Hv & Hr) | (ps & Hc & _)])
         | (table & ps & opts & Hsel & Hc & Hh & _)]].
  - apply (main_status_of_panic panicnil pam params v); try assumption. apply Hs.
  - apply (main_status_of_panic panicnil pam params v); try assumption. apply Hs.
  - destruct H as [H | [[v H] | [v H]]]; congruence.
  - destruct H as [H | [[v H] | [v H]]]; congruence.
Qed.

(** When start-up reaches the resource loop and no resource is of kind
    StaticRoute, [mainImpl] panics with the nil [err]. *)
Lemma missing_crd_panics_with_nil
    (pam : string -> string -> option net.IPNet) (params : mainImplParams) :
  snd (getConfig params) = None ->
  snd (newManager params (fst (getConfig params))) = None ->
  addToScheme params (fst (newManager params (fst (getConfig params)))) = None ->
  getEnv params "NODE_HOSTNAME" <> "" ->
  snd (newKubernetesConfig params (fst (getConfig params))) = None ->
  snd (ServerResourcesForGroupVersion params
         (fst (newKubernetesConfig params (fst (getConfig params))))
         "static-route.ibm.com/v1") = None ->
  returned (selectTable (getEnv params)) <> None ->
  returned (collectProtectedSubnets pam (osEnv params)) <> None ->
  existsb isStaticRoute (discovered params) = false ->
  snd (mainImpl pam params) = Panic AnyNil.
Proof.
  unfold mainImpl, discovered.
  destruct (getConfig params) as [cfg e1]; cbn [fst snd]. intros ->.
  destruct (newManager params cfg) as [mgr e2]; cbn [fst snd]. intros -> ->.
  intros Hh. apply String.eqb_neq in Hh. rewrite Hh.
  destruct (newKubernetesConfig params cfg) as [cs e3]; cbn [fst snd]. intros ->.
  destruct (ServerResourcesForGroupVersion params cs _) as [rs e4]; cbn [fst snd].
  intros ->.
  destruct (selectTable (getEnv params)) as [table|]; [intros _ | now intros H].
  destruct (collectProtectedSubnets pam (osEnv params)) as [ps|]; [intros _ | now intros H].
  intros Hrs.
  apply (registerStaticRoute_none params mgr (getEnv params "NODE_HOSTNAME") table ps)
    in Hrs.
  cbn. rewrite Hrs. reflexivity.
Qed.

(** C1, at the input where it fails. Every collaborator succeeds,
    NODE_HOSTNAME is set, and the one resource discovered is not of kind
    StaticRoute: [mainImpl] logs that the CRD is missing and panics with
    the nil [err]; with the nil operand recovered as nil the deferred
    function skips [os.Exit(1)] and the process exits with status 0. *)
Theorem missing_crd_exit_status :
  let params := Sample.params Sample.env [] [Sample.other] in
  snd (mainImpl net.parseAddrMask4 params) = Panic AnyNil /\
  main true net.parseAddrMask4 params =
    ([EvInfo (Lit "Registering Components.");
      EvInfo (Sprintf "Node Hostname: %s" [ArgString "node1"]);
      EvInfo (Lit "Registering Components.");
      EvTableSelected 254;
      EvInfo (Lit "CRD not found: staticroutes.static-route.ibm.com")], 0) /\
  snd (main false net.parseAddrMask4 params) = 1.
Proof. repeat split. Qed.

Lemma nil_panic_stopped_early
    (pam : string -> string -> option net.IPNet) (params : mainImplParams) :
  snd (mainImpl pam params) = Panic AnyNil ->
  stoppedEarly (fst (mainImpl pam params)) /\
  existsb isStaticRoute (discovered params) = false.
Proof.
  intros H.
  destruct (mainImpl_cases pam params)
    as [(_ & _ & v & Hr & Hv & _)
       | [(Hs & table & _ & _ & _ & [(v & _ & Hv & Hr) | (ps & _ & Hk & _)])
         | (table & ps & opts & _ & _ & _ & _ & _ & _ & _ & _ & _ & _ & [Hr | [e Hr]])]];
    try congruence.
  now split.
Qed.

Lemma missing_crd_status_general
    (pam : string -> string -> option net.IPNet) (params : mainImplParams) :
  snd (mainImpl pam params) = Panic AnyNil ->
  snd (main true pam params) = 0 /\ snd (main false pam params) = 1.
Proof.
  intros H. destruct (nil_panic_stopped_early pam params H) as [(_ & Hs & _) _].
  rewrite !main_without_goroutine by exact Hs.
  unfold mainGoroutine. destruct (mainImpl pam params) as [t [a|v]]; simpl in *;
    [discriminate|].
  injection H as ->. split; reflexivity.
Qed.

Example missing_hostname_exit_1 :
  snd (main true net.parseAddrMask4
         (Sample.params (fun _ => "") [] [Sample.staticRoute])) = 1.
Proof. reflexivity. Qed.

Example bad_table_exit_1 :
  snd (main true net.parseAddrMask4
         (Sample.params (fun name => if String.eqb name "TARGET_TABLE" then "255" else "node1")
            [] [Sample.staticRoute])) = 1.
Proof. reflexivity. Qed.

Example started_exit_0 :
  snd (main true net.parseAddrMask4
         (Sample.params Sample.env ["PROTECTED_SUBNET_A=10.0.0.0/8"] [Sample.staticRoute])) = 0.
Proof. reflexivity. Qed.

(** * Further properties *)

(** ** Splitting and trimming *)

Lemma Split_append (a b : string) (sep : ascii) :
  strings.Split (a ++ String sep b) sep = (strings.Split a sep ++ strings.Split b sep)%list.
Proof.
  induction a as [|c a IH]; simpl.
  - now rewrite Ascii.eqb_refl.
  - rewrite IH. destruct (Ascii.eqb c sep); [reflexivity|].
    destruct (strings.Split a sep) as [|h t] eqn:E; [|reflexivity].
    now apply Split_nonempty in E.
Qed.

Lemma Split_length (s : string) (sep : ascii) :
  length (strings.Split s sep) = S (Startup.occurrences sep s).
Proof.
  induction s as [|c s IH]; simpl; [reflexivity|].
  destruct (Ascii.eqb c sep); simpl; [now rewrite IH|].
  destruct (strings.Split s sep) as [|h t] eqn:E; [now apply Split_nonempty in E|].
  simpl in *. exact IH.
Qed.

Lemma TrimLeft_spaces (n : nat) (s : string) :
  strings.TrimLeft (Startup.spaces n ++ s) " " = strings.TrimLeft s " ".
Proof. induction n as [|n IH]; simpl; [reflexivity | exact IH]. Qed.

Lemma TrimRight_spaces (n : nat) : strings.TrimRight (Startup.spaces n) " " = "".
Proof. induction n as [|n IH]; simpl; [reflexivity | now rewrite IH]. Qed.

Lemma Trim_spaces (n : nat) : strings.Trim (Startup.spaces n) " " = "".
Proof.
  unfold strings.Trim.
  replace (Startup.spaces n) with (Startup.spaces n ++ "").
  - rewrite TrimLeft_spaces. reflexivity.
  - induction n as [|n IH]; simpl; [reflexivity | now rewrite IH].
Qed.

Lemma Split_spaces (n : nat) :
  strings.Split (Startup.spaces n) "," = [Startup.spaces n].
Proof. induction n as [|n IH]; simpl; [reflexivity | now rewrite IH]. Qed.

Lemma ParseCIDR_error pam (s : string) (e : error) :
  net.ParseCIDR pam s = Err e -> e = ParseError "CIDR address" s.
Proof.
  unfold net.ParseCIDR. destruct (strings.cut "/" s) as [[a m]|].
  - destruct (pam a m); [discriminate|]. now intros H; injection H as <-.
  - now intros H; injection H as <-.
Qed.

(** ** collectProtectedSubnets, further *)

Lemma appendSubnets_acc pam ps acc :
  appendSubnets pam ps acc =
  match appendSubnets pam ps [] with
  | Ret l => Ret (acc ++ l)%list
  | Panic v => Panic v
  end.
Proof.
  revert acc; induction ps as [|p ps IH]; intros acc; simpl.
  - now rewrite app_nil_r.
  - destruct (net.ParseCIDR pam (strings.Trim p " ")) as [n|e]; [|reflexivity].
    rewrite (IH (acc ++ [n])%list), (IH [n]).
    destruct (appendSubnets pam ps []); [|reflexivity].
    now rewrite <- app_assoc.
Qed.

Lemma collectFrom_acc pam env acc :
  collectFrom pam env acc =
  match collectFrom pam env [] with
  | Ret l => Ret (acc ++ l)%list
  | Panic v => Panic v
  end.
Proof.
  revert acc; induction env as [|e env IH]; intros acc.
  - simpl. now rewrite app_nil_r.
  - cbn [collectFrom]. unfold strings.SplitN2.
    destruct (strings.cut "=" e) as [[name value]|]; cbn [elemAt nth_error bind].
    + destruct (strings.Contains name "PROTECTED_SUBNET_"); [|apply IH].
      rewrite (appendSubnets_acc pam _ acc).
      destruct (appendSubnets pam (strings.Split value ",") []) as [l|v]; cbn [bind];
        [|reflexivity].
      rewrite (IH (acc ++ l)%list), (IH l).
      destruct (collectFrom pam env []); [|reflexivity].
      now rewrite <- app_assoc.
    + destruct (strings.Contains e "PROTECTED_SUBNET_"); [reflexivity | apply IH].
Qed.

Lemma collectFrom_app pam env1 env2 acc :
  collectFrom pam (env1 ++ env2) acc =
  bind (collectFrom pam env1 acc) (collectFrom pam env2).
Proof.
  revert acc; induction env1 as [|e env1 IH]; intros acc; [reflexivity|].
  cbn [app collectFrom]. unfold strings.SplitN2.
  destruct (strings.cut "=" e) as [[name value]|]; cbn [elemAt nth_error bind].
  - destruct (strings.Contains name "PROTECTED_SUBNET_"); [|apply IH].
    destruct (appendSubnets pam (strings.Split value ",") acc); cbn [bind];
      [apply IH | reflexivity].
  - destruct (strings.Contains e "PROTECTED_SUBNET_"); [reflexivity | apply IH].
Qed.

(** X1. The collection of a concatenated environment is the collection of
    the first part followed by that of the second; a panic in the first
    part is the panic of the whole, whatever the second part holds. *)
Theorem collectProtectedSubnets_app
    (pam : string -> string -> option net.IPNet) (env1 env2 : list string) :
  collectProtectedSubnets pam (env1 ++ env2) =
  match collectProtectedSubnets pam env1 with
  | Panic v => Panic v
  | Ret l1 =>
      match collectProtectedSubnets pam env2 with
      | Panic v => Panic v
      | Ret l2 => Ret (l1 ++ l2)%list
      end
  end.
Proof.
  unfold collectProtectedSubnets. rewrite collectFrom_app.
  destruct (collectFrom pam env1 []) as [l1|v]; cbn [bind]; [|reflexivity].
  apply collectFrom_acc.
Qed.

(** X2. An environment without a designated variable, the empty one
    included, gives the empty collection and no panic, whatever the other
    variables hold. *)
Theorem no_protected_subnet_variable
    (pam : string -> string -> option net.IPNet) (env : list string) :
  (forall e, In e env -> ~ Spec.hasMarker (Spec.envName e)) ->
  collectProtectedSubnets pam env = Ret [].
Proof.
  intros Hnone. unfold collectProtectedSubnets. rewrite collectFrom_filter.
  replace (filter Spec.designated env) with (@nil string); [reflexivity|].
  symmetry. induction env as [|e env IH]; [reflexivity|].
  cbn [filter]. destruct (Spec.designated e) eqn:Hd.
  - exfalso. apply (Hnone e); [now left | now apply designated_iff].
  - apply IH. intros e' He'. apply Hnone. now right.
Qed.

Lemma no_protected_subnet_variable_witness :
  collectProtectedSubnets net.parseAddrMask4
    ["HOME=/root"; "NOTE=PROTECTED_SUBNET_1"; "bogus"; ""] = Ret [].
Proof.
  apply no_protected_subnet_variable.
  intros e He Hm. apply designated_iff in Hm.
  repeat (destruct He as [<- | He]; [discriminate Hm|]). contradiction.
Defined.

Lemma length_concat_map {A B} (f : A -> list B) (l : list A) :
  length (concat (map f l)) = list_sum (map (fun a => length (f a)) l).
Proof.
  induction l as [|a l IH]; simpl; [reflexivity|].
  now rewrite length_app, IH.
Qed.

(** X3. A returned collection holds one network for every designated
    variable and one more for every comma in its value: no piece is
    dropped or merged. *)
Theorem collectProtectedSubnets_length
    (pam : string -> string -> option net.IPNet) (env : list string)
    (l : list net.IPNet) :
  collectProtectedSubnets pam env = Ret l ->
  length l = Startup.expectedCount env.
Proof.
  intros Hc.
  assert (Hs : Spec.protectedSubnets pam env = Some l)
    by (rewrite <- returned_collectProtectedSubnets, Hc; reflexivity).
  unfold Spec.protectedSubnets in Hs. unfold Startup.expectedCount.
  destruct (Spec.traverse Spec.envValue (filter Spec.designated env)) as [values|] eqn:Hv;
    [|discriminate].
  apply traverse_length in Hs. rewrite Hs, length_concat_map.
  clear Hs Hc. revert values Hv.
  induction (filter Spec.designated env) as [|e es IH]; simpl; intros values Hv.
  - now injection Hv as <-.
  - destruct (Spec.envValue e) as [value|]; [|discriminate].
    destruct (Spec.traverse Spec.envValue es) as [vs|]; [|discriminate].
    injection Hv as <-. simpl. rewrite (IH vs eq_refl).
    unfold Spec.pieces. now rewrite length_map, Split_length.
Qed.

Lemma collectProtectedSubnets_length_witness :
  length [ {| net.ip := [10; 0; 0; 0]; net.Mask := [255; 0; 0; 0] |};
           {| net.ip := [192; 168; 0; 0]; net.Mask := [255; 255; 0; 0] |};
           {| net.ip := [172; 16; 0; 0]; net.Mask := [255; 240; 0; 0] |} ]
  = Startup.expectedCount
      ["PROTECTED_SUBNET_A=10.0.0.0/8,192.168.0.0/16"; "PATH=/bin,/sbin";
       "PROTECTED_SUBNET_B=172.16.0.0/12"].
Proof.
  apply (collectProtectedSubnets_length net.parseAddrMask4). reflexivity.
Defined.

Lemma appendSubnets_panic_inv pam ps acc v :
  appendSubnets pam ps acc = Panic v ->
  exists p, In p ps /\
    v = AnyError (ParseError "CIDR address" (strings.Trim p " ")) /\
    Spec.parseNet pam (strings.Trim p " ") = None.
Proof.
  revert acc; induction ps as [|p ps IH]; intros acc; simpl; [discriminate|].
  unfold Spec.parseNet at 1.
  destruct (net.ParseCIDR pam (strings.Trim p " ")) as [n|e] eqn:E.
  - intros H. destruct (IH _ H) as [q [H1 H2]]. exists q. split; [now right | exact H2].
  - intros H. injection H as <-. exists p. split; [now left|].
    unfold Spec.parseNet. rewrite E. apply ParseCIDR_error in E. now subst e.
Qed.

Lemma collect_panic_inv
    (pam : string -> string -> option net.IPNet) (env : list string) (v : any) :
  collectProtectedSubnets pam env = Panic v ->
  (v = AnyRuntimeError "index out of range" /\
   exists e, In e env /\ Spec.hasMarker (Spec.envName e) /\ Spec.envValue e = None) \/
  (exists e value p,
     In e env /\ Spec.hasMarker (Spec.envName e) /\ Spec.envValue e = Some value /\
     In p (Spec.pieces value) /\ Spec.parseNet pam p = None /\
     v = AnyError (ParseError "CIDR address" p)).
Proof.
  unfold collectProtectedSubnets. generalize (@nil net.IPNet) as acc.
  induction env as [|e env IH]; intros acc; [discriminate|].
  cbn [collectFrom]. unfold strings.SplitN2.
  assert (Hrest : forall acc', collectFrom pam env acc' = Panic v ->
    (v = AnyRuntimeError "index out of range" /\
     exists e0, In e0 (e :: env) /\ Spec.hasMarker (Spec.envName e0) /\
                Spec.envValue e0 = None) \/
    (exists e0 value p,
       In e0 (e :: env) /\ Spec.hasMarker (Spec.envName e0) /\
       Spec.envValue e0 = Some value /\
       In p (Spec.pieces value) /\ Spec.parseNet pam p = None /\
       v = AnyError (ParseError "CIDR address" p))).
  { intros acc' H. destruct (IH acc' H) as [[Hv (e0 & H1 & H2)] | (e0 & value & p & H1 & H2)].
    - left. split; [exact Hv|]. exists e0. split; [now right | exact H2].
    - right. exists e0, value, p. split; [now right | exact H2]. }
  destruct (strings.cut "=" e) as [[name value]|] eqn:Hcut; cbn [elemAt nth_error bind].
  - destruct (strings.Contains name "PROTECTED_SUBNET_") eqn:Hd; [|apply Hrest].
    destruct (appendSubnets pam (strings.Split value ",") acc) as [acc'|v'] eqn:Ha;
      cbn [bind]; [apply Hrest|].
    intros H. injection H as ->. right.
    destruct (appendSubnets_panic_inv _ _ _ _ Ha) as (p & Hp & Hv & Hn).
    exists e, value, (strings.Trim p " ").
    split; [now left|]. split.
    { apply designated_iff. unfold Spec.designated, Spec.envName. now rewrite Hcut. }
    split; [unfold Spec.envValue; now rewrite Hcut|].
    split; [unfold Spec.pieces; now apply (in_map (fun q => strings.Trim q " "))|].
    now split.
  - destruct (strings.Contains e "PROTECTED_SUBNET_") eqn:Hd; [|apply Hrest].
    intros H. injection H as <-. left. split; [reflexivity|].
    exists e. split; [now left|]. split.
    { apply designated_iff. unfold Spec.designated, Spec.envName. now rewrite Hcut. }
    unfold Spec.envValue. now rewrite Hcut.
Qed.

(** X4. When [collectProtectedSubnets] panics, the operand tells why: an
    index out of range for a designated entry that has no [=], or the
    parse error of a piece of a designated variable, naming that piece
    without its surrounding spaces. *)
Theorem collectProtectedSubnets_panic_operand
    (pam : string -> string -> option net.IPNet) (env : list string) (v : any) :
  collectProtectedSubnets pam env = Panic v ->
  (v = AnyRuntimeError "index out of range" /\
   exists e, In e env /\ Spec.hasMarker (Spec.envName e) /\ Spec.envValue e = None) \/
  (exists e value p,
     In e env /\ Spec.hasMarker (Spec.envName e) /\ Spec.envValue e = Some value /\
     In p (Spec.pieces value) /\ Spec.parseNet pam p = None /\
     v = AnyError (ParseError "CIDR address" p)).
Proof. apply collect_panic_inv. Qed.

Lemma collectProtectedSubnets_panic_operand_witness :
  exists e value p,
    In e ["PROTECTED_SUBNET_A=10.0.0.0/8,  10.0.0.0  "] /\
    Spec.hasMarker (Spec.envName e) /\ Spec.envValue e = Some value /\
    In p (Spec.pieces value) /\ Spec.parseNet net.parseAddrMask4 p = None /\
    AnyError (ParseError "CIDR address" "10.0.0.0") = AnyError (ParseError "CIDR address" p).
Proof.
  destruct (collectProtectedSubnets_panic_operand net.parseAddrMask4
              ["PROTECTED_SUBNET_A=10.0.0.0/8,  10.0.0.0  "]
              (AnyError (ParseError "CIDR address" "10.0.0.0")) eq_refl)
    as [[Hv _] | H].
  - discriminate Hv.
  - exact H.
Defined.

(** X5. A designated entry without [=] has no value to split: reading
    [v[1]] panics, so the collection is not returned. Alone in the
    environment, the entry gives the index-out-of-range panic. *)
Theorem designated_entry_without_value
    (pam : string -> string -> option net.IPNet) (env : list string) (e : string) :
  In e env -> Spec.hasMarker (Spec.envName e) -> Spec.envValue e = None ->
  panics (collectProtectedSubnets pam env) /\
  collectProtectedSubnets pam [e] = Panic (AnyRuntimeError "index out of range").
Proof.
  intros Hin Hm Hv. apply designated_iff in Hm. split.
  - apply returned_None. rewrite returned_collectProtectedSubnets.
    destruct (Spec.protectedSubnets pam env) as [l|] eqn:Hs; [|reflexivity].
    destruct (protectedSubnets_In pam env l e Hs Hin Hm) as [value [Hv' _]]. congruence.
  - unfold collectProtectedSubnets. cbn [collectFrom].
    unfold Spec.designated, Spec.envName, Spec.envValue in *. unfold strings.SplitN2.
    destruct (strings.cut "=" e) as [[name value]|]; [discriminate|].
    cbn [elemAt nth_error bind]. now rewrite Hm.
Qed.

Lemma designated_entry_without_value_witness :
  panics (collectProtectedSubnets net.parseAddrMask4
            ["PROTECTED_SUBNET_A=10.0.0.0/8"; "PROTECTED_SUBNET_B"]).
Proof.
  apply (proj1 (designated_entry_without_value net.parseAddrMask4
           ["PROTECTED_SUBNET_A=10.0.0.0/8"; "PROTECTED_SUBNET_B"] "PROTECTED_SUBNET_B"
           (or_intror (or_introl eq_refl))
           (ex_intro _ "" (ex_intro _ "B" eq_refl)) eq_refl)).
Defined.

(** X6. A piece made of spaces only, the empty piece included, is fatal:
    a value that ends or begins with a comma, or holds two commas with
    nothing but spaces between them, makes the collection panic. *)
Theorem blank_piece_is_fatal
    (pam : string -> string -> option net.IPNet) (env : list string)
    (e value : string) :
  In e env -> Spec.hasMarker (Spec.envName e) -> Spec.envValue e = Some value ->
  (exists a n, value = a ++ "," ++ Startup.spaces n) \/
  (exists n b, value = Startup.spaces n ++ "," ++ b) \/
  (exists a n b, value = a ++ "," ++ Startup.spaces n ++ "," ++ b) ->
  panics (collectProtectedSubnets pam env).
Proof.
  intros Hin Hm Hv Hshape. apply designated_iff in Hm.
  assert (Hp : exists n, In (Startup.spaces n) (strings.Split value ",")).
  { destruct Hshape as [(a & n & ->) | [(n & b & ->) | (a & n & b & ->)]]; exists n.
    - change (a ++ "," ++ Startup.spaces n) with (a ++ String "," (Startup.spaces n)).
      rewrite Split_append, Split_spaces. apply in_or_app. right. now left.
    - change (Startup.spaces n ++ "," ++ b) with (Startup.spaces n ++ String "," b).
      rewrite Split_append, Split_spaces. now left.
    - change (a ++ "," ++ Startup.spaces n ++ "," ++ b)
        with (a ++ String "," (Startup.spaces n ++ String "," b)).
      rewrite Split_append, Split_append, Split_spaces.
      apply in_or_app. right. now left. }
  destruct Hp as [n Hp].
  apply (unparsable_piece_panics pam env e value (Startup.spaces n)
           (ParseError "CIDR address" "")); try assumption.
  now rewrite Trim_spaces.
Qed.

Lemma blank_piece_is_fatal_witness :
  panics (collectProtectedSubnets net.parseAddrMask4
            ["PROTECTED_SUBNET_A=10.0.0.0/8, "]).
Proof.
  apply (blank_piece_is_fatal net.parseAddrMask4
           ["PROTECTED_SUBNET_A=10.0.0.0/8, "] "PROTECTED_SUBNET_A=10.0.0.0/8, "
           "10.0.0.0/8, "
           (or_introl eq_refl)
           (ex_intro _ "" (ex_intro _ "A" eq_refl)) eq_refl).
  left. exists "10.0.0.0/8", 1%nat. reflexivity.
Defined.

(** ** mainImpl, further *)

Lemma selectTable_range (env : string -> string) (table : Z) :
  selectTable env = Ret table -> 0 <= table <= 254.
Proof.
  unfold selectTable, parseTargetTable, defaultRouteTable.
  destruct (negb _); [|intros H; injection H as <-; lia].
  destruct (strconv.Atoi _) as [m|e]; [|discriminate].
  destruct (m <? 0) eqn:E1; [discriminate|].
  destruct (m >? 254) eqn:E2; [discriminate|].
  intros H. injection H as <-. lia.
Qed.

(** One run of [mainImpl], step by step: a goal for each place where it
    can stop. *)
Ltac run_mainImpl pam params :=
  unfold mainImpl, discovered;
  let cfg := fresh "cfg" in let mgr := fresh "mgr" in
  let cs := fresh "cs" in let rs := fresh "rs" in
  let table := fresh "table" in let ps := fresh "ps" in
  destruct (getConfig params) as [cfg [?e|]]; cbn [fst snd];
  [cbn | destruct (newManager params cfg) as [mgr [?e|]]; cbn [fst snd];
  [cbn | destruct (addToScheme params mgr) as [?e|] eqn:?Hscheme;
  [cbn | destruct (getEnv params "NODE_HOSTNAME" =? "")%string eqn:?Hhost;
  [cbn | destruct (newKubernetesConfig params cfg) as [cs [?e|]]; cbn [fst snd];
  [cbn | destruct (ServerResourcesForGroupVersion params cs "static-route.ibm.com/v1")
           as [rs [?e|]]; cbn [fst snd];
  [cbn | destruct (selectTable (getEnv params)) as [table|?v] eqn:?Htable;
  [destruct (collectProtectedSubnets pam (osEnv params)) as [ps|?v] eqn:?Hsubnets;
  [cbn [panicIf tbind tret tpanic emit lift app];
   rewrite (registerStaticRoute_eq params mgr table ps rs);
   destruct (existsb isStaticRoute rs) eqn:?Hcrd;
  [destruct (addStaticRouteController params mgr (Startup.options params table ps))
     as [?e|] eqn:?Hsrc;
  [cbn | destruct (addNodeController params mgr) as [?e|] eqn:?Hnode;
  [cbn | destruct (mgrStart params mgr) as [?e|] eqn:?Hstart; cbn]]
  | cbn] | cbn] | cbn]]]]]]].

(** X7. A run of [mainImpl] that returns has done the whole start-up, in
    order and once each: the three log lines, the table, the route manager
    created and started, the static route controller, the node controller
    and the manager. *)
Theorem complete_startup_trace
    (pam : string -> string -> option net.IPNet) (params : mainImplParams) :
  snd (mainImpl pam params) = Ret tt ->
  exists table ps,
    selectTable (getEnv params) = Ret table /\
    collectProtectedSubnets pam (osEnv params) = Ret ps /\
    getEnv params "NODE_HOSTNAME" <> "" /\
    existsb isStaticRoute (discovered params) = true /\
    fst (mainImpl pam params) = Startup.complete params table ps.
Proof.
  run_mainImpl pam params; try discriminate.
  intros _. exists table, ps. apply String.eqb_neq in Hhost. now repeat split.
Qed.

Lemma complete_startup_trace_witness :
  exists table ps,
    selectTable Sample.env = Ret table /\
    collectProtectedSubnets net.parseAddrMask4 ["PROTECTED_SUBNET_A=10.0.0.0/8"] = Ret ps /\
    Sample.env "NODE_HOSTNAME" <> "" /\
    existsb isStaticRoute [Sample.other; Sample.staticRoute] = true /\
    fst (mainImpl net.parseAddrMask4
           (Sample.params Sample.env ["PROTECTED_SUBNET_A=10.0.0.0/8"]
              [Sample.other; Sample.staticRoute]))
    = Startup.complete
        (Sample.params Sample.env ["PROTECTED_SUBNET_A=10.0.0.0/8"]
           [Sample.other; Sample.staticRoute]) table ps.
Proof.
  apply (complete_startup_trace net.parseAddrMask4
           (Sample.params Sample.env ["PROTECTED_SUBNET_A=10.0.0.0/8"]
              [Sample.other; Sample.staticRoute])).
  reflexivity.
Defined.

(** X8. No run of [mainImpl] skips or reorders a step: its events are an
    initial part of the complete start-up sequence, followed at most by
    the log line of the failure (the missing CRD, or the manager's exit). *)
Theorem startup_steps_in_order
    (pam : string -> string -> option net.IPNet) (params : mainImplParams) :
  exists table ps n tail,
    fst (mainImpl pam params) =
      (firstn n (Startup.complete params table ps) ++ tail)%list /\
    (tail = [] \/
     tail = [EvInfo (Lit "CRD not found: staticroutes.static-route.ibm.com")] \/
     exists e, tail = [EvError (AnyError e) "Manager exited non-zero"]).
Proof.
  run_mainImpl pam params.
  - exists 0, [], 0%nat, []. split; [reflexivity | now left].
  - exists 0, [], 0%nat, []. split; [reflexivity | now left].
  - exists 0, [], 1%nat, []. split; [reflexivity | now left].
  - exists 0, [], 1%nat, []. split; [reflexivity | now left].
  - exists 0, [], 3%nat, []. split; [reflexivity | now left].
  - exists 0, [], 3%nat, []. split; [reflexivity | now left].
  - exists table, ps, 7%nat, []. split; [reflexivity | now left].
  - exists table, ps, 8%nat, []. split; [reflexivity | now left].
  - exists table, ps, 10%nat, [EvError (AnyError e) "Manager exited non-zero"].
    split; [reflexivity | right; right; now exists e].
  - exists table, ps, 10%nat, []. split; [reflexivity | now left].
  - exists table, ps, 4%nat,
      [EvInfo (Lit "CRD not found: staticroutes.static-route.ibm.com")].
    split; [reflexivity | right; now left].
  - exists table, [], 4%nat, []. split; [reflexivity | now left].
  - exists 0, [], 3%nat, []. split; [reflexivity | now left].
Qed.

(** X9. The options any static route controller is registered with are
    the configured ones: the non-empty NODE_HOSTNAME, the table selected,
    the protected subnets collected, the route manager just created and
    the caller's gateway resolver. *)
Theorem controller_gets_configuration
    (pam : string -> string -> option net.IPNet) (params : mainImplParams)
    (opts : ManagerOptions) :
  In opts (controllerOptions (fst (mainImpl pam params))) ->
  exists table ps,
    selectTable (getEnv params) = Ret table /\
    collectProtectedSubnets pam (osEnv params) = Ret ps /\
    opts = Startup.options params table ps /\
    Hostname opts <> "" /\ 0 <= OptTable opts <= 254 /\
    created (fst (mainImpl pam params)) = [OptRouteManager opts].
Proof.
  run_mainImpl pam params; try contradiction;
    (intros [<- | []]; exists table, ps; apply String.eqb_neq in Hhost;
     repeat split; try assumption;
     apply (selectTable_range (getEnv params)); assumption).
Qed.

Lemma controller_gets_configuration_witness :
  exists table ps,
    selectTable Sample.env = Ret table /\
    collectProtectedSubnets net.parseAddrMask4 ["PROTECTED_SUBNET_A=10.0.0.0/8"] = Ret ps /\
    Startup.options (Sample.params Sample.env ["PROTECTED_SUBNET_A=10.0.0.0/8"]
                       [Sample.staticRoute]) 254
      [ {| net.ip := [10; 0; 0; 0]; net.Mask := [255; 0; 0; 0] |} ]
    = Startup.options (Sample.params Sample.env ["PROTECTED_SUBNET_A=10.0.0.0/8"]
                         [Sample.staticRoute]) table ps /\
    "node1" <> "" /\ 0 <= 254 <= 254 /\
    created (fst (mainImpl net.parseAddrMask4
                    (Sample.params Sample.env ["PROTECTED_SUBNET_A=10.0.0.0/8"]
                       [Sample.staticRoute]))) = [mkRouteManager 0].
Proof.
  apply (controller_gets_configuration net.parseAddrMask4
           (Sample.params Sample.env ["PROTECTED_SUBNET_A=10.0.0.0/8"]
              [Sample.staticRoute])
           (Startup.options (Sample.params Sample.env ["PROTECTED_SUBNET_A=10.0.0.0/8"]
                               [Sample.staticRoute]) 254
              [ {| net.ip := [10; 0; 0; 0]; net.Mask := [255; 0; 0; 0] |} ])).
  left. reflexivity.
Defined.

(** X10. Every table that [mainImpl] logs as selected or hands to the
    static route controller lies between 0 and 254, whatever TARGET_TABLE
    holds. *)
Theorem selected_table_in_range
    (pam : string -> string -> option net.IPNet) (params : mainImplParams) :
  Forall (fun table => 0 <= table <= 254) (tablesSelected (fst (mainImpl pam params))) /\
  Forall (fun opts => 0 <= OptTable opts <= 254)
    (controllerOptions (fst (mainImpl pam params))).
Proof.
  destruct (mainImpl_cases pam params)
    as [((_ & _ & Ho) & Ht & _)
       | [((_ & _ & Ho) & table & Hsel & Ht & _)
         | (table & ps & opts & Hsel & _ & _ & _ & Ht & _ & _ & Ho & Htab & _)]];
    rewrite Ht, Ho; split; repeat constructor;
    try rewrite Htab; apply (selectTable_range (getEnv params)); assumption.
Qed.

Lemma parseTargetTable_returns (s : string) (n : Z) :
  parseTargetTable s = Ret n <-> strconv.Atoi s = Ok n /\ 0 <= n <= 254.
Proof.
  unfold parseTargetTable. split.
  - destruct (strconv.Atoi s) as [m|e]; [|discriminate].
    destruct (m <? 0) eqn:E1; [discriminate|].
    destruct (m >? 254) eqn:E2; [discriminate|].
    intros H. injection H as <-. split; [reflexivity | lia].
  - intros [-> [H0 H1]].
    replace (n <? 0) with false by lia. replace (n >? 254) with false by lia.
    reflexivity.
Qed.

(** X11. The table chosen at lines 187-191: 254 when TARGET_TABLE is
    empty, otherwise the integer TARGET_TABLE parses to, provided it lies
    between 0 and 254; nothing else is ever chosen. *)
Theorem selectTable_spec (env : string -> string) (n : Z) :
  selectTable env = Ret n <->
  (env "TARGET_TABLE" = "" /\ n = 254) \/
  (env "TARGET_TABLE" <> "" /\ strconv.Atoi (env "TARGET_TABLE") = Ok n /\ 0 <= n <= 254).
Proof.
  unfold selectTable.
  destruct (env "TARGET_TABLE") as [|c s] eqn:E; cbn [String.length Nat.eqb negb].
  - unfold defaultRouteTable. split.
    + intros H. injection H as <-. now left.
    + intros [[_ ->] | [H _]]; [reflexivity | now elim H].
  - rewrite (parseTargetTable_returns (String c s) n). split.
    + intros H. right. split; [discriminate | exact H].
    + intros [[H _] | [_ H]]; [discriminate | exact H].
Qed.

Lemma selectTable_spec_witness :
  selectTable (fun name => if String.eqb name "TARGET_TABLE" then "100" else "") = Ret 100.
Proof.
  apply (proj2 (selectTable_spec
                  (fun name => if String.eqb name "TARGET_TABLE" then "100" else "") 100)).
  right. split; [discriminate|]. split; [reflexivity | lia].
Defined.

(** ** The exit status, further *)

Lemma goroutinePanic_returns run (t : list event) (rm : RouteManager) :
  In rm (started t) -> run rm <> None -> goroutinePanic run t <> None.
Proof.
  induction t as [|e t IH]; [contradiction|].
  destruct e; cbn [started flat_map app goroutinePanic]; intros Hin Hrun;
    try (specialize (IH Hin Hrun); destruct (goroutinePanic run t);
         [discriminate | contradiction]).
  destruct (run rm0) as [[k err]|] eqn:E; [discriminate|].
  destruct Hin as [-> | Hin]; [contradiction|].
  specialize (IH Hin Hrun). destruct (goroutinePanic run t); [discriminate | contradiction].
Qed.

Lemma goroutinePanic_blocks run (t : list event) :
  (forall rm, In rm (started t) -> run rm = None) -> goroutinePanic run t = None.
Proof.
  induction t as [|e t IH]; [reflexivity|].
  destruct e; cbn [started flat_map app goroutinePanic]; intros H;
    try (now rewrite (IH H)).
  rewrite (H rm) by now left.
  rewrite IH; [reflexivity|]. intros rm' Hin. apply H. now right.
Qed.

Lemma mainGoroutine_status_zero
    (pam : string -> string -> option net.IPNet) (params : mainImplParams) :
  (snd (mainGoroutine false pam params) = 0 <-> snd (mainImpl pam params) = Ret tt) /\
  (snd (mainGoroutine true pam params) = 0 <->
     snd (mainImpl pam params) = Ret tt \/
     (snd (mainImpl pam params) = Panic AnyNil /\
      existsb isStaticRoute (discovered params) = false /\
      stoppedEarly (fst (mainImpl pam params)))).
Proof.
  pose proof (nil_panic_stopped_early pam params) as Hnil.
  unfold mainGoroutine. destruct (mainImpl pam params) as [t [[]|v]]; cbn [fst snd] in *.
  - split; [split; reflexivity | split; [now left | reflexivity]].
  - split.
    + destruct v; simpl; split; discriminate.
    + split.
      * destruct v; simpl; try discriminate. intros _. right.
        destruct (Hnil eq_refl) as [H1 H2]. split; [reflexivity | split; assumption].
      * intros [H | [H _]]; [discriminate|]. injection H as ->. reflexivity.
Qed.

(** X12. The exit status and the goroutine. When the goroutine running
    [Run] was started and [Run] returns while the process is running, the
    process ends with status 2, whatever [mainImpl] does and whatever
    [Run] returned. When [Run] does not return, the main goroutine
    decides: with a nil panic operand recovered as nil the status is 0
    exactly when [mainImpl] returned or panicked for want of the
    StaticRoute kind, nothing having been started; with nil operands
    replaced by the run time it is 0 exactly when [mainImpl] returned. *)
Theorem exit_status_zero
    (pam : string -> string -> option net.IPNet) (params : mainImplParams) :
  (forall panicnil rm k err,
     In rm (started (fst (mainImpl pam params))) ->
     Run params rm = Some (k, err) ->
     snd (main panicnil pam params) = 2) /\
  ((forall rm, In rm (started (fst (mainImpl pam params))) -> Run params rm = None) ->
   (snd (main false pam params) = 0 <-> snd (mainImpl pam params) = Ret tt) /\
   (snd (main true pam params) = 0 <->
      snd (mainImpl pam params) = Ret tt \/
      (snd (mainImpl pam params) = Panic AnyNil /\
       existsb isStaticRoute (discovered params) = false /\
       stoppedEarly (fst (mainImpl pam params))))).
Proof.
  split.
  - intros b rm k err Hin Hrun. rewrite <- (started_mainGoroutine b) in Hin.
    unfold main. destruct (mainGoroutine b pam params) as [t status]. cbn [fst] in Hin.
    pose proof (goroutinePanic_returns (Run params) t rm Hin) as H.
    destruct (goroutinePanic (Run params) t); [reflexivity|].
    elim H; [congruence | reflexivity].
  - intros Hrun.
    assert (E : forall b, main b pam params = mainGoroutine b pam params).
    { intros b. rewrite <- (started_mainGoroutine b) in Hrun. unfold main.
      destruct (mainGoroutine b pam params) as [t status]. cbn [fst] in Hrun.
      now rewrite (goroutinePanic_blocks _ t Hrun). }
    rewrite !E. apply mainGoroutine_status_zero.
Qed.

Lemma exit_status_zero_witness :
  snd (main true net.parseAddrMask4
         (Startup.withRun
            (Sample.params Sample.env ["PROTECTED_SUBNET_A=10.0.0.0/8"] [Sample.staticRoute])
            (fun _ => Some (1%nat, None)))) = 2 /\
  snd (mainImpl net.parseAddrMask4
         (Sample.params Sample.env ["PROTECTED_SUBNET_A=10.0.0.0/8"] [Sample.staticRoute]))
  = Ret tt.
Proof.
  split.
  - apply (proj1 (exit_status_zero net.parseAddrMask4
             (Startup.withRun
                (Sample.params Sample.env ["PROTECTED_SUBNET_A=10.0.0.0/8"]
                   [Sample.staticRoute])
                (fun _ => Some (1%nat, None))))
             true (mkRouteManager 0) 1%nat None).
    + left. reflexivity.
    + reflexivity.
  - apply (proj1 (proj1 (proj2 (exit_status_zero net.parseAddrMask4
             (Sample.params Sample.env ["PROTECTED_SUBNET_A=10.0.0.0/8"]
                [Sample.staticRoute]))
             (fun _ _ => eq_refl)))).
    reflexivity.
Defined.

Example goroutine_panic_cuts_the_trace :
  main true net.parseAddrMask4
    (Startup.withRun (Sample.params Sample.env [] [Sample.staticRoute])
       (fun _ => Some (1%nat, Some (OtherError "netlink: closed")))) =
  ([EvInfo (Lit "Registering Components.");
    EvInfo (Sprintf "Node Hostname: %s" [ArgString "node1"]);
    EvInfo (Lit "Registering Components.");
    EvTableSelected 254;
    EvNewRouterManager (mkRouteManager 0);
    EvGoRun (mkRouteManager 0);
    EvAddStaticRouteController
      (Startup.options (Sample.params Sample.env [] [Sample.staticRoute]) 254 [])], 2).
Proof. reflexivity. Qed.

(** X13. Whenever start-up reaches the resource loop and no discovered
    resource is of kind StaticRoute, whatever the environment and the
    other resources, [mainImpl] panics with a nil operand after logging
    that the CRD was not found; the exit status is then 0 when a nil
    operand is recovered as nil and 1 when the run time replaces it. *)
Theorem missing_crd_in_general
    (pam : string -> string -> option net.IPNet) (params : mainImplParams) :
  snd (getConfig params) = None ->
  snd (newManager params (fst (getConfig params))) = None ->
  addToScheme params (fst (newManager params (fst (getConfig params)))) = None ->
  getEnv params "NODE_HOSTNAME" <> "" ->
  snd (newKubernetesConfig params (fst (getConfig params))) = None ->
  snd (ServerResourcesForGroupVersion params
         (fst (newKubernetesConfig params (fst (getConfig params))))
         "static-route.ibm.com/v1") = None ->
  returned (selectTable (getEnv params)) <> None ->
  returned (collectProtectedSubnets pam (osEnv params)) <> None ->
  existsb isStaticRoute (discovered params) = false ->
  snd (mainImpl pam params) = Panic AnyNil /\
  snd (main true pam params) = 0 /\
  snd (main false pam params) = 1.
Proof.
  intros H1 H2 H3 H4 H5 H6 H7 H8 H9.
  pose proof (missing_crd_panics_with_nil pam params H1 H2 H3 H4 H5 H6 H7 H8 H9) as H.
  split; [exact H|]. now apply missing_crd_status_general.
Qed.

Lemma missing_crd_in_general_witness :
  snd (main true net.parseAddrMask4
         (Sample.params Sample.env ["PROTECTED_SUBNET_A=10.0.0.0/8"] [])) = 0.
Proof.
  apply (missing_crd_in_general net.parseAddrMask4
           (Sample.params Sample.env ["PROTECTED_SUBNET_A=10.0.0.0/8"] []));
    try reflexivity; discriminate.
Defined.

(** X14. The checks come in a fixed order, and the first that fails is
    the one reported. With the collaborators up to [addToScheme]
    succeeding, a missing NODE_HOSTNAME is the panic whatever TARGET_TABLE
    and the protected subnets hold; with the discovery succeeding too, a
    bad TARGET_TABLE is the panic whatever the protected subnets hold, and
    no table is logged; a bad protected subnet is reported after the table
    was logged. *)
Theorem startup_error_precedence
    (pam : string -> string -> option net.IPNet) (params : mainImplParams) :
  snd (getConfig params) = None ->
  snd (newManager params (fst (getConfig params))) = None ->
  addToScheme params (fst (newManager params (fst (getConfig params)))) = None ->
  (getEnv params "NODE_HOSTNAME" = "" ->
   mainImpl pam params =
     ([EvInfo (Lit "Registering Components.")],
      Panic (AnyString (Lit "Missing environment variable: NODE_HOSTNAME")))) /\
  (getEnv params "NODE_HOSTNAME" <> "" ->
   snd (newKubernetesConfig params (fst (getConfig params))) = None ->
   snd (ServerResourcesForGroupVersion params
          (fst (newKubernetesConfig params (fst (getConfig params))))
          "static-route.ibm.com/v1") = None ->
   (forall v, selectTable (getEnv params) = Panic v ->
      mainImpl pam params = (firstn 3 (Startup.prelude params 0), Panic v)) /\
   (forall table v,
      selectTable (getEnv params) = Ret table ->
      collectProtectedSubnets pam (osEnv params) = Panic v ->
      mainImpl pam params = (Startup.prelude params table, Panic v))).
Proof.
  unfold mainImpl.
  destruct (getConfig params) as [cfg e1]; cbn [fst snd]. intros ->.
  destruct (newManager params cfg) as [mgr e2]; cbn [fst snd]. intros -> ->.
  split.
  - intros ->. reflexivity.
  - intros Hh. apply String.eqb_neq in Hh. rewrite Hh.
    destruct (newKubernetesConfig params cfg) as [cs e3]; cbn [fst snd]. intros ->.
    destruct (ServerResourcesForGroupVersion params cs _) as [rs e4]; cbn [fst snd].
    intros ->. split.
    + intros v ->. reflexivity.
    + intros table v -> ->. reflexivity.
Qed.

Lemma startup_error_precedence_witness :
  mainImpl net.parseAddrMask4
    (Sample.params (fun name => if String.eqb name "TARGET_TABLE" then "300" else "")
       ["PROTECTED_SUBNET_A=bogus"] [Sample.staticRoute])
  = ([EvInfo (Lit "Registering Components.")],
     Panic (AnyString (Lit "Missing environment variable: NODE_HOSTNAME"))).
Proof.
  apply (proj1 (startup_error_precedence net.parseAddrMask4
           (Sample.params (fun name => if String.eqb name "TARGET_TABLE" then "300" else "")
              ["PROTECTED_SUBNET_A=bogus"] [Sample.staticRoute])
           eq_refl eq_refl eq_refl)).
  reflexivity.
Defined.

(** ** getGw, further *)

(** X15. [getGw] panics exactly when the lookup succeeds without a
    route. When it returns an error there is no gateway with it, and when
    it returns without error the gateway is that of the first route alone:
    the other routes of the answer do not matter. *)
Theorem getGw_outcomes (RouteGet : net.IP -> result (list Route)) (ip : net.IP) :
  (panics (getGw RouteGet ip) <-> RouteGet ip = Ok []) /\
  (forall gw err, getGw RouteGet ip = Ret (gw, Some err) ->
     gw = [] /\ RouteGet ip = Err err) /\
  (forall gw, getGw RouteGet ip = Ret (gw, None) ->
     exists r rest, RouteGet ip = Ok (r :: rest) /\ gw = Gw r /\
       getGw (fun _ => Ok [r]) ip = Ret (gw, None)).
Proof.
  unfold getGw. destruct (RouteGet ip) as [[|r rest]|e]; cbn.
  - split; [split; [reflexivity | intros _; eexists; reflexivity]|].
    split; intros; discriminate.
  - split; [split; [intros [v H]; discriminate | discriminate]|]. split.
    + intros gw err H. discriminate.
    + intros gw H. injection H as <-. exists r, rest. now repeat split.
  - split; [split; [intros [v H]; discriminate | discriminate]|]. split.
    + intros gw err H. injection H as <- <-. now split.
    + intros gw H. discriminate.
Qed.

Lemma getGw_outcomes_witness :
  panics (getGw (fun _ => Ok []) [8; 8; 8; 8]).
Proof.
  apply (proj2 (proj1 (getGw_outcomes (fun _ => Ok []) [8; 8; 8; 8]))).
  reflexivity.
Defined.

(** ** parseTargetTable, further *)

Lemma parseTargetTable_decimal_witness :
  parseTargetTable (Spec.decimal 100) = Ret 100.
Proof. apply (parseTargetTable_decimal 100). lia. Defined.

Lemma parseTargetTable_not_numeric (s : string) :
  Spec.numeric s = false -> panics (parseTargetTable s).
Proof.
  intros H. unfold parseTargetTable.
  destruct (strconv.Atoi s) as [n|e] eqn:E.
  - apply Atoi_numeric in E. congruence.
  - eexists; reflexivity.
Qed.

Lemma allDigits_space (s : string) : Spec.allDigits (s ++ " ") = false.
Proof.
  induction s as [|c s IH]; simpl; [reflexivity|].
  now destruct (strconv.digit c).
Qed.

(** X17. TARGET_TABLE is not trimmed: a value with a space before or
    after the number is a fatal error, unlike the pieces of a protected
    subnet variable. *)
Theorem parseTargetTable_rejects_spaces (s : string) :
  panics (parseTargetTable (String " " s)) /\ panics (parseTargetTable (s ++ " ")).
Proof.
  split; apply parseTargetTable_not_numeric.
  - reflexivity.
  - unfold Spec.numeric.
    destruct s as [|c s]; [reflexivity|].
    assert (H : Spec.allDigits (String c s ++ " ") = false) by apply allDigits_space.
    assert (H' : Spec.allDigits (s ++ " ") = false) by apply allDigits_space.
    cbn [append] in *.
    destruct c as [[] [] [] [] [] [] [] []];
      try (rewrite H; apply andb_false_r); rewrite H'; apply andb_false_r.
Qed.

Lemma parseDigits_nonneg (s : string) (n un : Z) :
  0 <= n -> strconv.parseDigits n s = inl un -> 0 <= un.
Proof.
  revert n; induction s as [|c s IH]; simpl; intros n Hn.
  - intros H. injection H as <-. exact Hn.
  - unfold strconv.digit.
    destruct ((48 <=? Z.of_nat (nat_of_ascii c)) && (Z.of_nat (nat_of_ascii c) <=? 57)) eqn:E;
      [|discriminate].
    destruct (n >=? _); [discriminate|].
    destruct (_ >? _); [discriminate|].
    apply IH. apply andb_true_iff in E. lia.
Qed.

Lemma parseDigits_zero (s : string) :
  strconv.parseDigits 0 (String "0" s) = strconv.parseDigits 0 s.
Proof. reflexivity. Qed.

(** X18. The notation of the table id: a plus sign or a zero put before
    an accepted number changes nothing (the number is read in base 10),
    and a minus sign is accepted before zero only. *)
Theorem parseTargetTable_notation (s : string) (n : Z) :
  (parseTargetTable s = Ret n -> Startup.startsWithDigit s = true ->
   parseTargetTable (String "+" s) = Ret n /\ parseTargetTable (String "0" s) = Ret n) /\
  (parseTargetTable (String "-" s) = Ret n -> n = 0).
Proof.
  split.
  - intros H Hd. apply parseTargetTable_returns in H. destruct H as [Ha Hn].
    destruct s as [|c s]; [discriminate|].
    split; apply parseTargetTable_returns; (split; [|exact Hn]).
    + revert Ha. unfold strconv.Atoi.
      destruct c as [[] [] [] [] [] [] [] []]; try discriminate Hd;
        cbv beta iota zeta;
        (destruct (strconv.parseDigits 0 (String _ s)); [|discriminate]);
        cbn [negb andb]; (destruct (_ >=? _); [discriminate | exact (fun H => H)]).
    + revert Ha. unfold strconv.Atoi.
      destruct c as [[] [] [] [] [] [] [] []]; try discriminate Hd;
        cbv beta iota zeta; rewrite !parseDigits_zero;
        match goal with
        | |- context [strconv.parseDigits 0 ?x] =>
            destruct (strconv.parseDigits 0 x); [|discriminate]
        end;
        cbn [negb andb]; (destruct (_ >=? _); [discriminate | exact (fun H => H)]).
  - intros H. apply parseTargetTable_returns in H. destruct H as [Ha Hn].
    unfold strconv.Atoi in Ha. cbv beta iota zeta in Ha.
    destruct s as [|c s]; [discriminate|].
    destruct (strconv.parseDigits 0 (String c s)) as [un|k] eqn:E; [|discriminate].
    apply parseDigits_nonneg in E; [|lia].
    cbn [negb andb] in Ha. destruct (un >? 2 ^ 63); [discriminate|].
    injection Ha as <-. lia.
Qed.

Lemma parseTargetTable_notation_witness :
  parseTargetTable "+100" = Ret 100 /\ parseTargetTable "0100" = Ret 100.
Proof.
  apply (proj1 (parseTargetTable_notation "100" 100)); reflexivity.
Defined.

(** ** Spaces in a protected-subnet value *)

Lemma spaces_append_nil (n : nat) : Startup.spaces n ++ "" = Startup.spaces n.
Proof. induction n as [|n IH]; simpl; [reflexivity | now rewrite IH]. Qed.

Lemma TrimRight_pad (s : string) (m : nat) :
  strings.TrimRight (s ++ Startup.spaces m) " " = strings.TrimRight s " ".
Proof.
  induction s as [|a s IH]; simpl.
  - apply TrimRight_spaces.
  - now rewrite IH.
Qed.

Lemma Trim_pad_right (s : string) (m : nat) :
  strings.Trim (s ++ Startup.spaces m) " " = strings.Trim s " ".
Proof.
  unfold strings.Trim. induction s as [|a s IH].
  - cbn [append]. rewrite <- (spaces_append_nil m), TrimLeft_spaces. simpl.
    reflexivity.
  - cbn [append strings.TrimLeft]. destruct (Ascii.eqb a " "); [exact IH|].
    apply (TrimRight_pad (String a s) m).
Qed.

Lemma Trim_pad_left (n : nat) (s : string) :
  strings.Trim (Startup.spaces n ++ s) " " = strings.Trim s " ".
Proof. unfold strings.Trim. now rewrite TrimLeft_spaces. Qed.

Lemma Split_pad_left (n : nat) (v : string) :
  exists first rest,
    strings.Split v "," = first :: rest /\
    strings.Split (Startup.spaces n ++ v) "," = (Startup.spaces n ++ first) :: rest.
Proof.
  induction n as [|n (first & rest & H1 & H2)]; cbn [Startup.spaces append].
  - destruct (strings.Split v ",") as [|h t] eqn:E; [now apply Split_nonempty in E|].
    now exists h, t.
  - exists first, rest. split; [exact H1|]. simpl. now rewrite H2.
Qed.

Lemma Split_pad_right (v : string) (m : nat) :
  exists init last,
    strings.Split v "," = (init ++ [last])%list /\
    strings.Split (v ++ Startup.spaces m) "," = (init ++ [(last ++ Startup.spaces m)%string])%list.
Proof.
  induction v as [|c v (init & last & H1 & H2)].
  - exists [], "". split; [reflexivity|]. apply Split_spaces.
  - cbn [append strings.Split]. rewrite H1, H2.
    destruct (Ascii.eqb c ",").
    + exists ("" :: init), last. now split.
    + destruct init as [|h t].
      * exists [], (String c last). now split.
      * exists (String c h :: t), last. now split.
Qed.

Lemma pieces_pad (n m : nat) (v : string) :
  Spec.pieces (Startup.spaces n ++ v ++ Startup.spaces m) = Spec.pieces v.
Proof.
  unfold Spec.pieces.
  destruct (Split_pad_left n (v ++ Startup.spaces m)) as (first & rest & H1 & H2).
  rewrite H2. cbn [map]. rewrite Trim_pad_left.
  change (strings.Trim first " " :: map (fun p => strings.Trim p " ") rest)
    with (map (fun p => strings.Trim p " ") (first :: rest)).
  rewrite <- H1.
  destruct (Split_pad_right v m) as (init & last & H3 & H4).
  rewrite H3, H4, !map_app. cbn [map]. now rewrite Trim_pad_right.
Qed.

Lemma pieces_comma (a b : string) :
  Spec.pieces (a ++ "," ++ b) = (Spec.pieces a ++ Spec.pieces b)%list.
Proof.
  unfold Spec.pieces. change (a ++ "," ++ b) with (a ++ String "," b).
  now rewrite Split_append, map_app.
Qed.

Lemma appendSubnets_ext pam ps1 ps2 acc :
  map (fun p => strings.Trim p " ") ps1 = map (fun p => strings.Trim p " ") ps2 ->
  appendSubnets pam ps1 acc = appendSubnets pam ps2 acc.
Proof.
  revert ps2 acc; induction ps1 as [|p ps1 IH]; intros [|q ps2] acc H;
    try discriminate; [reflexivity|].
  cbn [map] in H. injection H as Hp Hrest. cbn [appendSubnets]. rewrite Hp.
  destruct (net.ParseCIDR pam (strings.Trim q " ")); [now apply IH | reflexivity].
Qed.

(** X19. Spaces around a piece are ignored. A value is read through its
    pieces: spaces at both ends of a value leave the pieces unchanged, the
    pieces of two values joined by a comma are those of the one followed
    by those of the other, and two values of a variable with the same
    pieces give the same collection, or the same panic. *)
Theorem spaces_around_pieces_ignored
    (pam : string -> string -> option net.IPNet) :
  (forall n m v, Spec.pieces (Startup.spaces n ++ v ++ Startup.spaces m) = Spec.pieces v) /\
  (forall a b, Spec.pieces (a ++ "," ++ b) = (Spec.pieces a ++ Spec.pieces b)%list) /\
  (forall before after name v1 v2,
     strings.cut "=" name = None ->
     Spec.pieces v1 = Spec.pieces v2 ->
     collectProtectedSubnets pam (before ++ (name ++ "=" ++ v1) :: after) =
     collectProtectedSubnets pam (before ++ (name ++ "=" ++ v2) :: after)).
Proof.
  split; [exact pieces_pad|]. split; [exact pieces_comma|].
  intros before after name v1 v2 Hname Hp.
  unfold collectProtectedSubnets. rewrite !collectFrom_app.
  destruct (collectFrom pam before []) as [acc|v]; cbn [bind]; [|reflexivity].
  cbn [collectFrom]. unfold strings.SplitN2.
  change (name ++ "=" ++ v1) with (name ++ String "=" v1).
  change (name ++ "=" ++ v2) with (name ++ String "=" v2).
  rewrite !(cut_append "=" name) by assumption. cbn [elemAt nth_error bind].
  destruct (strings.Contains name "PROTECTED_SUBNET_"); [|reflexivity].
  now rewrite (appendSubnets_ext pam (strings.Split v1 ",") (strings.Split v2 ",") acc Hp).
Qed.

Lemma spaces_around_pieces_ignored_witness :
  collectProtectedSubnets net.parseAddrMask4
    ["HOME=/root"; "PROTECTED_SUBNET_A= 10.0.0.0/8 ,192.168.0.0/16  "] =
  collectProtectedSubnets net.parseAddrMask4
    ["HOME=/root"; "PROTECTED_SUBNET_A=10.0.0.0/8,192.168.0.0/16"].
Proof.
  apply (proj2 (proj2 (spaces_around_pieces_ignored net.parseAddrMask4))
           ["HOME=/root"] [] "PROTECTED_SUBNET_A"
           " 10.0.0.0/8 ,192.168.0.0/16  " "10.0.0.0/8,192.168.0.0/16");
    reflexivity.
Defined.

(** ** The start-up as a whole *)

(** X20. The discovered resources matter only by whether one of them is
    of kind StaticRoute: two discoveries that agree on that give the same
    run, event for event, whatever the number, order and names of the
    resources. *)
Theorem discovery_matters_by_presence
    (pam : string -> string -> option net.IPNet) (params : mainImplParams)
    (rs1 rs2 : list APIResource) :
  existsb isStaticRoute rs1 = existsb isStaticRoute rs2 ->
  mainImpl pam (Startup.withResources params rs1) =
  mainImpl pam (Startup.withResources params rs2).
Proof.
  intros H. unfold mainImpl. cbn [Startup.withResources getEnv osEnv getConfig newManager
    addToScheme newKubernetesConfig ServerResourcesForGroupVersion addNodeController
    mgrStart].
  destruct (getConfig params) as [cfg [e|]]; [reflexivity|].
  destruct (newManager params cfg) as [mgr [e|]]; [reflexivity|].
  destruct (addToScheme params mgr) as [e|]; [reflexivity|].
  destruct (getEnv params "NODE_HOSTNAME" =? "")%string; [reflexivity|].
  destruct (newKubernetesConfig params cfg) as [cs [e|]]; [reflexivity|].
  destruct (selectTable (getEnv params)) as [table|v]; [|reflexivity].
  destruct (collectProtectedSubnets pam (osEnv params)) as [ps|v]; [|reflexivity].
  pose proof (registerStaticRoute_eq (Startup.withResources params rs1) mgr table ps rs1) as E1.
  pose proof (registerStaticRoute_eq (Startup.withResources params rs2) mgr table ps rs2) as E2.
  cbn [Startup.withResources getEnv] in E1, E2.
  cbn [panicIf tbind tret tpanic emit lift app]. rewrite E1, E2, H. reflexivity.
Qed.

Lemma discovery_matters_by_presence_witness :
  mainImpl net.parseAddrMask4
    (Startup.withResources (Sample.params Sample.env [] [])
       [Sample.other; Sample.staticRoute; Sample.staticRoute]) =
  mainImpl net.parseAddrMask4
    (Startup.withResources (Sample.params Sample.env [] []) [Sample.staticRoute]).
Proof.
  apply (discovery_matters_by_presence net.parseAddrMask4 (Sample.params Sample.env [] [])).
  reflexivity.
Defined.

(** X21. A configuration error is found before anything is started: with
    NODE_HOSTNAME missing, TARGET_TABLE bad or a protected subnet bad,
    [mainImpl] panics with an operand that is not nil, no route manager
    was created, no goroutine started and no controller added, and the
    process exits with status 1. *)
Theorem configuration_errors_stop_early
    (pam : string -> string -> option net.IPNet) (params : mainImplParams) :
  getEnv params "NODE_HOSTNAME" = "" \/
  panics (selectTable (getEnv params)) \/
  panics (collectProtectedSubnets pam (osEnv params)) ->
  (exists v, snd (mainImpl pam params) = Panic v /\ v <> AnyNil) /\
  stoppedEarly (fst (mainImpl pam params)) /\
  forall panicnil, snd (main panicnil pam params) = 1.
Proof.
  intros H.
  destruct (mainImpl_cases pam params)
    as [(Hs & _ & v & Hr & Hv & _)
       | [(Hs & table & Hsel & _ & Hh & [(v & Hc & Hv & Hr) | (ps & Hc & _)])
         | (table & ps & opts & Hsel & Hc & Hh & _)]].
  - split; [now exists v|]. split; [exact Hs|].
    intros b. apply (main_status_of_panic b pam params v); try assumption. apply Hs.
  - split; [now exists v|]. split; [exact Hs|].
    intros b. apply (main_status_of_panic b pam params v); try assumption. apply Hs.
  - destruct H as [H | [[v H] | [v H]]]; congruence.
  - destruct H as [H | [[v H] | [v H]]]; congruence.
Qed.

Lemma configuration_errors_stop_early_witness :
  stoppedEarly (fst (mainImpl net.parseAddrMask4
     (Sample.params (fun name => if String.eqb name "TARGET_TABLE" then "255" else "node1")
        [] [Sample.staticRoute]))).
Proof.
  apply (configuration_errors_stop_early net.parseAddrMask4
     (Sample.params (fun name => if String.eqb name "TARGET_TABLE" then "255" else "node1")
        [] [Sample.staticRoute])).
  right. left. eexists. reflexivity.
Defined.

Lemma selectTable_panic_operand (env : string -> string) (v : any) :
  selectTable env = Panic v ->
  env "TARGET_TABLE" <> "" /\ exists format args, v = AnyString (Sprintf format args).
Proof.
  unfold selectTable, parseTargetTable.
  destruct (env "TARGET_TABLE") as [|c s]; cbn [String.length Nat.eqb negb]; [discriminate|].
  intros H. split; [discriminate|].
  destruct (strconv.Atoi (String c s)); [destruct (_ || _)|]; try discriminate;
    injection H as <-; now eexists _, _.
Qed.

(** X22. What the operand of a panic of [mainImpl] tells: nil, that no
    resource of kind StaticRoute was discovered; a plain string, that
    NODE_HOSTNAME is missing; a formatted string, that TARGET_TABLE is set
    and bad; a run-time error, that a designated environment entry has no
    [=]. *)
Theorem panic_operand_tells_the_cause
    (pam : string -> string -> option net.IPNet) (params : mainImplParams) (v : any) :
  snd (mainImpl pam params) = Panic v ->
  (v = AnyNil -> existsb isStaticRoute (discovered params) = false) /\
  (forall s, v = AnyString (Lit s) ->
     getEnv params "NODE_HOSTNAME" = "" /\
     s = "Missing environment variable: NODE_HOSTNAME") /\
  (forall format args, v = AnyString (Sprintf format args) ->
     getEnv params "TARGET_TABLE" <> "" /\ selectTable (getEnv params) = Panic v) /\
  (forall msg, v = AnyRuntimeError msg ->
     exists e, In e (osEnv params) /\ Spec.hasMarker (Spec.envName e) /\
               Spec.envValue e = None).
Proof.
  run_mainImpl pam params; intros Hv; try discriminate Hv; injection Hv as <-.
  all: (split; [intros H; try discriminate H
       | split; [intros s H; try discriminate H
       | split; [intros format args H; try discriminate H
                | intros msg H; try discriminate H]]]).
  all: try (apply String.eqb_eq in Hhost; injection H as <-; now split).
  all: try assumption.
  all: try reflexivity.
  all: try (destruct (selectTable_panic_operand _ _ Htable) as [Hne (f & a & Hf)];
            first [congruence | now split]).
  all: destruct (collect_panic_inv pam (osEnv params) _ Hsubnets)
      as [[Hr He] | (e & value & p & _ & _ & _ & _ & _ & He)];
    first [congruence | exact He].
Qed.

Lemma panic_operand_tells_the_cause_witness :
  exists e, In e ["PROTECTED_SUBNET_A"] /\ Spec.hasMarker (Spec.envName e) /\
            Spec.envValue e = None.
Proof.
  apply (proj2 (proj2 (proj2 (panic_operand_tells_the_cause net.parseAddrMask4
           (Sample.params Sample.env ["PROTECTED_SUBNET_A"] [Sample.staticRoute])
           (AnyRuntimeError "index out of range") eq_refl)))
           "index out of range").
  reflexivity.
Defined.
